(** * RedInk image generators

    A shallow embedding of [backend/generators/wan26_t2i.py] (the synchronous
    Wan2.6 generator) and [backend/generators/modelscope_z_image.py] (the
    asynchronous ModelScope Z-Image generator), and the properties the
    specification states about them.

    Python values are an inductive type, Python [str] is a list of Unicode
    code points, exceptions are results, and the network and the clock are an
    explicit world that every effectful call threads. *)

From Stdlib Require Import String Ascii List Bool NArith ZArith QArith Qround.
From Stdlib Require Import Strings.Byte DecimalString Lia Lqa.
Import ListNotations.

Set Warnings "-register-all".

Close Scope Q_scope.
Close Scope string_scope.

(* ===================================================================== *)
(** * Python strings, values and exceptions *)
(* ===================================================================== *)

Module Py.

(** A Python [str] is a sequence of Unicode code points. *)
Definition str := list N.

(** String literals are written as Rocq strings, which hold UTF-8 bytes. *)
Fixpoint utf8_decode (bs : list N) : str :=
  match bs with
  | [] => []
  | b0 :: t0 =>
    if (b0 <? 0x80)%N then b0 :: utf8_decode t0
    else
      match t0 with
      | [] => [b0]
      | b1 :: t1 =>
        if (b0 <? 0xE0)%N then
          N.lor (N.shiftl (N.land b0 0x1F) 6) (N.land b1 0x3F) :: utf8_decode t1
        else
          match t1 with
          | [] => [b0]
          | b2 :: t2 =>
            if (b0 <? 0xF0)%N then
              N.lor (N.shiftl (N.land b0 0x0F) 12)
                (N.lor (N.shiftl (N.land b1 0x3F) 6) (N.land b2 0x3F))
              :: utf8_decode t2
            else
              match t2 with
              | [] => [b0]
              | b3 :: t3 =>
                N.lor (N.shiftl (N.land b0 0x07) 18)
                  (N.lor (N.shiftl (N.land b1 0x3F) 12)
                     (N.lor (N.shiftl (N.land b2 0x3F) 6) (N.land b3 0x3F)))
                :: utf8_decode t3
              end
          end
      end
  end.

Definition lit (s : string) : str :=
  utf8_decode (map N_of_ascii (list_ascii_of_string s)).

Definition str_eqb (a b : str) : bool :=
  if list_eq_dec N.eq_dec a b then true else false.

Definition is_empty {A} (l : list A) : bool :=
  match l with [] => true | _ => false end.

(** ** Methods of [str] *)

(** [str.isspace] on one character: CPython's [_PyUnicode_IsWhitespace]. *)
Definition isspace (c : N) : bool :=
  ((0x09 <=? c) && (c <=? 0x0D) || (0x1C <=? c) && (c <=? 0x20)
   || (c =? 0x85) || (c =? 0xA0) || (c =? 0x1680)
   || (0x2000 <=? c) && (c <=? 0x200A)
   || (c =? 0x2028) || (c =? 0x2029) || (c =? 0x202F) || (c =? 0x205F)
   || (c =? 0x3000))%N.

Fixpoint dropwhile {A} (p : A -> bool) (l : list A) : list A :=
  match l with
  | [] => []
  | x :: t => if p x then dropwhile p t else l
  end.

Fixpoint takewhile {A} (p : A -> bool) (l : list A) : list A :=
  match l with
  | [] => []
  | x :: t => if p x then x :: takewhile p t else []
  end.

Definition lstrip_by {A} (p : A -> bool) (s : list A) : list A := dropwhile p s.
Definition rstrip_by {A} (p : A -> bool) (s : list A) : list A :=
  rev (dropwhile p (rev s)).

(** [s.strip()], [s.rstrip()] *)
Definition rstrip (s : str) : str := rstrip_by isspace s.
Definition lstrip (s : str) : str := lstrip_by isspace s.
Definition strip (s : str) : str := rstrip (lstrip s).

(** [s.rstrip(chars)] *)
Definition rstrip_chars (chars : string) (s : str) : str :=
  rstrip_by (fun c => existsb (N.eqb c) (lit chars)) s.

(** [s.startswith(p)] *)
Fixpoint prefix_of (p s : str) : bool :=
  match p, s with
  | [], _ => true
  | a :: p', b :: s' => (a =? b)%N && prefix_of p' s'
  | _ :: _, [] => false
  end.

Definition startswith (s : str) (p : string) : bool := prefix_of (lit p) s.

(** [s.endswith(p)] *)
Definition suffix_of (p s : str) : bool := prefix_of (rev p) (rev s).
Definition endswith (s : str) (p : string) : bool := suffix_of (lit p) s.

(** [s.find(sub)]: the index of the first occurrence. *)
Fixpoint find (sub s : str) : option nat :=
  if prefix_of sub s then Some 0%nat
  else
    match s with
    | [] => None
    | _ :: t => option_map S (find sub t)
    end.

(** [sub in s] *)
Definition contains (sub : string) (s : str) : bool :=
  match find (lit sub) s with Some _ => true | None => false end.

(** [s.split(sep, 1)] for a non-empty separator. *)
Definition split_once (sep : string) (s : str) : list str :=
  match find (lit sep) s with
  | Some i => [firstn i s; skipn (i + List.length (lit sep)) s]
  | None => [s]
  end.

(** [s.split(c)] for a one-character separator. *)
Fixpoint split_char (c : N) (s : str) : list str :=
  match s with
  | [] => [[]]
  | x :: t =>
    match split_char c t with
    | [] => [[]]
    | w :: ws => if (x =? c)%N then [] :: w :: ws else (x :: w) :: ws
    end
  end.

(** [s.replace(a, b)] for one-character [a] and [b]. *)
Definition replace_char (a b : N) (s : str) : str :=
  map (fun c => if (c =? a)%N then b else c) s.

(** [v or default] for an optional string [v]: [None] and the empty string
    give the default. *)
Definition opt_or (v : option str) (default : str) : str :=
  match v with
  | Some (c :: s) => c :: s
  | _ => default
  end.

Definition str_or (v : option str) (default : string) : str := opt_or v (lit default).

(** [s[:n]] for [n >= 0] and [s[:-n]] for [n > 0]. *)
Definition slice_to (n : nat) (s : str) : str := firstn n s.
Definition slice_drop_last (n : nat) (s : str) : str := firstn (List.length s - n) s.

(** ** Values

    What [json.loads] produces, which is all the generators handle: [None],
    booleans, integers, finite floats (as the rational they denote), strings,
    lists and dicts with string keys. A dict is the list of its items, read
    by the first binding of a key. *)
Inductive pyval :=
| PNone
| PBool (b : bool)
| PInt (z : Z)
| PFloat (q : Q)
| PStr (s : str)
| PList (l : list pyval)
| PDict (d : list (str * pyval)).

(** [bool(v)] *)
Definition truthy (v : pyval) : bool :=
  match v with
  | PNone => false
  | PBool b => b
  | PInt z => negb (z =? 0)%Z
  | PFloat q => negb (Qnum q =? 0)%Z
  | PStr s => negb (is_empty s)
  | PList l => negb (is_empty l)
  | PDict d => negb (is_empty d)
  end.

(** [a or b] *)
Definition py_or (a b : pyval) : pyval := if truthy a then a else b.

(** [d.get(k)] on a dict: the value bound to [k], [None] when there is none. *)
Definition dict_get (d : list (str * pyval)) (k : string) : pyval :=
  match List.find (fun kv => str_eqb (fst kv) (lit k)) d with
  | Some kv => snd kv
  | None => PNone
  end.

(** ** Exceptions

    An exception is its class and its message; the message of an f-string is
    kept as its parts, the literal text and the values interpolated into it. *)
Inductive exn_class :=
| Exception | ValueError | AttributeError | IndexError | TypeError
| binascii_Error | JSONDecodeError | RequestException.

Inductive fpart :=
| Lit (s : string)          (* literal text *)
| NL                        (* "\n" *)
| Val (v : pyval)           (* {v} *)
| Cut (n : nat) (v : pyval) (* {str(v)[:n]} *).

Inductive exn := Raised (c : exn_class) (m : list fpart).

(** Exceptions raised by the interpreter and the libraries; their messages
    are not modelled. *)
Definition builtin (c : exn_class) : exn := Raised c [].

(** The result of a call: a value, an exception, or [Unfinished] when the
    iteration budget given to a [while True] loop ran out before the loop
    returned or raised. *)
Inductive res (A : Type) :=
| Ret (a : A)
| Raise (e : exn)
| Unfinished.
Arguments Ret {A} a.
Arguments Raise {A} e.
Arguments Unfinished {A}.

Definition bind {A B} (r : res A) (k : A -> res B) : res B :=
  match r with
  | Ret a => k a
  | Raise e => Raise e
  | Unfinished => Unfinished
  end.

(** [v.get(k)]: only a dict has the method. *)
Definition get (v : pyval) (k : string) : res pyval :=
  match v with
  | PDict d => Ret (dict_get d k)
  | _ => Raise (builtin AttributeError)
  end.

(** [l[i]] on a list of strings. *)
Definition index (l : list str) (i : nat) : res str :=
  match nth_error l i with
  | Some x => Ret x
  | None => Raise (builtin IndexError)
  end.

(** ** The interpreter's tables

    The Unicode character database beyond Latin-1, the limit on the digits
    of an integer literal ([sys.get_int_max_str_digits()], 0 when there is
    none) and [str()] of floats, lists and dicts are not part of the
    repository: they are parameters of the model. *)
Record Runtime := {
  ucd_lower : str -> str;          (* str.lower, strings with a character above U+00FF *)
  ucd_upper : N -> str;            (* full upper-case mapping, characters above U+00FF *)
  ucd_isdigit : N -> bool;         (* Numeric_Type Digit or Decimal, above U+00FF *)
  ucd_decimal : N -> option N;     (* decimal digit value (category Nd), above U+00FF *)
  int_max_str_digits : nat;
  repr : pyval -> str;             (* str(v) for floats, lists and dicts *)
}.

Definition latin1 (c : N) : bool := (c <? 0x100)%N.

Definition lower_latin1 (c : N) : N :=
  (if (0x41 <=? c) && (c <=? 0x5A) then c + 32
   else if (0xC0 <=? c) && (c <=? 0xDE) && negb (c =? 0xD7) then c + 32
   else c)%N.

Definition upper_latin1 (c : N) : str :=
  (if (0x61 <=? c) && (c <=? 0x7A) then [c - 32]
   else if (0xE0 <=? c) && (c <=? 0xFE) && negb (c =? 0xF7) then [c - 32]
   else if c =? 0xB5 then [0x39C]
   else if c =? 0xDF then [0x53; 0x53]
   else if c =? 0xFF then [0x178]
   else [c])%N.

(** [s.lower()] *)
Definition lower (R : Runtime) (s : str) : str :=
  if forallb latin1 s then map lower_latin1 s else ucd_lower R s.

(** [s.upper()] *)
Definition upper (R : Runtime) (s : str) : str :=
  flat_map (fun c => if latin1 c then upper_latin1 c else ucd_upper R c) s.

Definition ascii_digit (c : N) : bool := ((0x30 <=? c) && (c <=? 0x39))%N.

(** One character of [str.isdigit]: the decimal digits, and the superscript
    digits of Latin-1. *)
Definition isdigit_char (R : Runtime) (c : N) : bool :=
  if latin1 c then ascii_digit c || (c =? 0xB2)%N || (c =? 0xB3)%N || (c =? 0xB9)%N
  else ucd_isdigit R c.

(** [s.isdigit()] *)
Definition isdigit (R : Runtime) (s : str) : bool :=
  negb (is_empty s) && forallb (isdigit_char R) s.

(** The value of a decimal digit: what [int()] and the regex class [\d]
    accept. *)
Definition decimal_char (R : Runtime) (c : N) : option N :=
  if latin1 c then (if ascii_digit c then Some (c - 0x30)%N else None)
  else ucd_decimal R c.

Definition isdecimal_char (R : Runtime) (c : N) : bool :=
  match decimal_char R c with Some _ => true | None => false end.

Fixpoint decimal_values (R : Runtime) (s : str) : option (list N) :=
  match s with
  | [] => Some []
  | c :: t =>
    match decimal_char R c, decimal_values R t with
    | Some d, Some ds => Some (d :: ds)
    | _, _ => None
    end
  end.

(** [int(s)] for a non-empty [s] of digit characters (its callers check
    [s.isdigit()] first, so sign, blanks and underscores do not occur).
    A literal of more than 640 digits is checked against the digit limit. *)
Definition int (R : Runtime) (s : str) : res Z :=
  if (640 <? List.length s)%nat && (0 <? int_max_str_digits R)%nat
     && (int_max_str_digits R <? List.length s)%nat
  then Raise (builtin ValueError)
  else
    match decimal_values R s with
    | Some ds => Ret (fold_left (fun a d => (10 * a + Z.of_N d)%Z) ds 0%Z)
    | None => Raise (builtin ValueError)
    end.

(** The number a string of ASCII digits denotes. *)
Definition ascii_value (s : str) : Z :=
  fold_left (fun a c => (10 * a + Z.of_N (c - 0x30))%Z) s 0%Z.

(** [str(z)] of an integer: its decimal digits. An integer that [int()] or
    the JSON parser produced is within the digit limit, so the conversion
    does not fail. *)
Definition int_str (z : Z) : str := lit (NilZero.string_of_int (Z.to_int z)).

(** [str(v)], which is also what an f-string interpolates. *)
Definition to_str (R : Runtime) (v : pyval) : str :=
  match v with
  | PNone => lit "None"
  | PBool true => lit "True"
  | PBool false => lit "False"
  | PInt z => int_str z
  | PStr s => s
  | _ => repr R v
  end.

(** The text of a message. *)
Definition render_part (R : Runtime) (p : fpart) : str :=
  match p with
  | Lit s => lit s
  | NL => [10%N]
  | Val v => to_str R v
  | Cut n v => slice_to n (to_str R v)
  end.

Definition render (R : Runtime) (m : list fpart) : str :=
  flat_map (render_part R) m.

Definition message (R : Runtime) (e : exn) : str :=
  match e with Raised _ m => render R m end.

End Py.

Import Py.

Notation "x <~ c ;; k" := (Py.bind c (fun x => k))
  (at level 61, c at next level, right associativity).

(* ===================================================================== *)
(** * The outside world: the HTTP transport and the clock *)
(* ===================================================================== *)

Module Http.

Inductive verb := GET | POST.

(** What [requests.get] and [requests.post] are called with. *)
Record request := {
  req_method : verb;
  req_url : pyval;
  req_headers : list (string * str);
  req_json : option pyval;
  req_timeout : Z;
}.

(** A [requests.Response]: [json] is what [.json()] returns, [None] when
    the body is not JSON and the call raises. *)
Record response := {
  status_code : Z;
  text : str;
  content : list byte;
  json : option pyval;
}.

Definition response_json (r : response) : res pyval :=
  match json r with
  | Some v => Ret v
  | None => Raise (builtin JSONDecodeError)
  end.

(** The environment of a run: what the n-th request is answered with (a
    response, or the exception the transport raises), how long it takes, and
    by how much the n-th sleep oversleeps. *)
Record env := {
  reply : nat -> request -> exn + response;
  latency : nat -> Q;
  oversleep : nat -> Q;
}.

(** The state a run threads: the clock [time.time()] reads, the requests
    sent so far (oldest first) and the sleeps taken. Time is an exact
    rational number of seconds: the rounding of floating-point sums is not
    modelled. *)
Record world := {
  now : Q;
  sent : list request;
  naps : list Q;
}.

Definition M (A : Type) : Type := world -> res A * world.

Definition ret {A} (a : A) : M A := fun w => (Ret a, w).
Definition raise {A} (e : exn) : M A := fun w => (Raise e, w).
Definition lift {A} (r : res A) : M A := fun w => (r, w).

Definition bind {A B} (m : M A) (k : A -> M B) : M B :=
  fun w =>
    match m w with
    | (Ret a, w') => k a w'
    | (Raise e, w') => (Raise e, w')
    | (Unfinished, w') => (Unfinished, w')
    end.

(** The world after the next request, and after a sleep of [d] seconds. *)
Definition after_send (E : env) (r : request) (w : world) : world :=
  {| now := (now w + latency E (List.length (sent w)))%Q;
     sent := sent w ++ [r];
     naps := naps w |}.

Definition after_sleep (E : env) (d : Q) (w : world) : world :=
  {| now := (now w + d + oversleep E (List.length (naps w)))%Q;
     sent := sent w;
     naps := naps w ++ [d] |}.

Definition send (E : env) (r : request) : M response :=
  fun w =>
    match reply E (List.length (sent w)) r with
    | inr resp => (Ret resp, after_send E r w)
    | inl e => (Raise e, after_send E r w)
    end.

Definition post_request (url : str) (headers : list (string * str)) (payload : pyval)
    (t : Z) : request :=
  {| req_method := POST; req_url := PStr url; req_headers := headers;
     req_json := Some payload; req_timeout := t |}.

Definition get_request (url : pyval) (headers : list (string * str)) (t : Z) : request :=
  {| req_method := GET; req_url := url; req_headers := headers;
     req_json := None; req_timeout := t |}.

(** [requests.post(url, headers=headers, json=payload, timeout=t)] *)
Definition requests_post (E : env) (url : str) (headers : list (string * str))
    (payload : pyval) (t : Z) : M response :=
  send E (post_request url headers payload t).

(** [requests.get(url, headers=headers, timeout=t)] *)
Definition requests_get (E : env) (url : pyval) (headers : list (string * str))
    (t : Z) : M response :=
  send E (get_request url headers t).

(** [time.time()] *)
Definition time_time : M Q := fun w => (Ret (now w), w).


(** [time.sleep(d)], for [d] up to [sleep_max]: a negative [d] raises,
    otherwise at least [d] passes. Durations are finite: an infinite or
    undefined [max_wait_seconds] or [poll_interval_seconds] is outside the
    model. *)
Definition time_sleep (E : env) (d : Q) : M unit :=
  fun w =>
    if negb (Qle_bool 0 d) then (Raise (builtin ValueError), w)
    else (Ret tt, after_sleep E d w).

End Http.

Import Http.

Notation "x <- c ;; k" := (Http.bind c (fun x => k))
  (at level 61, c at next level, right associativity).

(* ===================================================================== *)
(** * base64 *)
(* ===================================================================== *)

Module Base64.

Definition uchar (n : N) : byte :=
  match Byte.of_N (n mod 256) with
  | Some b => b
  | None => x00
  end.

(** The alphabet of RFC 4648. *)
Definition table_b2a (n : N) : N :=
  (if n <? 26 then 65 + n
   else if n <? 52 then 97 + (n - 26)
   else if n <? 62 then 48 + (n - 52)
   else if n =? 62 then 43
   else 47)%N.

Definition table_a2b (c : N) : option N :=
  (if (65 <=? c) && (c <=? 90) then Some (c - 65)
   else if (97 <=? c) && (c <=? 122) then Some (c - 97 + 26)
   else if (48 <=? c) && (c <=? 57) then Some (c - 48 + 52)
   else if c =? 43 then Some 62
   else if c =? 47 then Some 63
   else None)%N.

Definition BASE64_PAD : N := 61.

(** The four 6-bit groups of three bytes. *)
Definition sextet0 (x : N) : N := N.shiftr x 2.
Definition sextet1 (x y : N) : N := N.lor (N.shiftl (N.land x 3) 4) (N.shiftr y 4).
Definition sextet2 (y z : N) : N := N.lor (N.shiftl (N.land y 15) 2) (N.shiftr z 6).
Definition sextet3 (z : N) : N := N.land z 63.

(** [base64.b64encode(b).decode()]: what the provider puts in the inline
    field. The repository only decodes; this is the encoding the round trip
    of the specification starts from. A last group of one or two bytes is
    completed with zero bits and padded with [=]. *)
Fixpoint b64encode (b : list byte) : str :=
  match b with
  | [] => []
  | [x] =>
    let x := Byte.to_N x in
    [table_b2a (sextet0 x); table_b2a (sextet1 x 0); BASE64_PAD; BASE64_PAD]
  | [x; y] =>
    let x := Byte.to_N x in
    let y := Byte.to_N y in
    [table_b2a (sextet0 x); table_b2a (sextet1 x y); table_b2a (sextet2 y 0);
     BASE64_PAD]
  | x :: y :: z :: rest =>
    let x := Byte.to_N x in
    let y := Byte.to_N y in
    let z := Byte.to_N z in
    table_b2a (sextet0 x) :: table_b2a (sextet1 x y) :: table_b2a (sextet2 y z)
    :: table_b2a (sextet3 z) :: b64encode rest
  end.

(** The loop of CPython's [binascii.a2b_base64] with [strict_mode] off:
    characters outside the alphabet are skipped, a pad that completes a
    quad ends the decoding, and an incomplete quad at the end is an error. *)
Fixpoint a2b_loop (s : list N) (quad_pos : nat) (leftchar : N) (pads : nat)
    (bin_data : list byte) : res (list byte) :=
  match s with
  | [] =>
    if (quad_pos =? 0)%nat then Ret bin_data else Raise (builtin binascii_Error)
  | this_ch :: rest =>
    if (this_ch =? BASE64_PAD)%N then
      if (2 <=? quad_pos)%nat then
        if (4 <=? quad_pos + (pads + 1))%nat then Ret bin_data
        else a2b_loop rest quad_pos leftchar (pads + 1) bin_data
      else a2b_loop rest quad_pos leftchar pads bin_data
    else
      match table_a2b this_ch with
      | None => a2b_loop rest quad_pos leftchar pads bin_data
      | Some this_ch =>
        match quad_pos with
        | 0%nat => a2b_loop rest 1 this_ch 0 bin_data
        | 1%nat =>
          a2b_loop rest 2 (N.land this_ch 0x0f) 0
            (bin_data ++ [uchar (N.lor (N.shiftl leftchar 2) (N.shiftr this_ch 4))])
        | 2%nat =>
          a2b_loop rest 3 (N.land this_ch 0x03) 0
            (bin_data ++ [uchar (N.lor (N.shiftl leftchar 4) (N.shiftr this_ch 2))])
        | _ =>
          a2b_loop rest 0 0 0
            (bin_data ++ [uchar (N.lor (N.shiftl leftchar 6) this_ch)])
        end
      end
  end.

Definition a2b_base64 (s : list N) : res (list byte) := a2b_loop s 0 0 0 [].

(** [base64.b64decode(v)]: a [str] must be ASCII; a value that is neither a
    [str] nor bytes-like (no JSON value is) is a [TypeError]. *)
Definition b64decode (v : pyval) : res (list byte) :=
  match v with
  | PStr s =>
    if forallb (fun c => (c <? 128)%N) s then a2b_base64 s
    else Raise (builtin ValueError)
  | _ => Raise (builtin TypeError)
  end.

End Base64.

(* ===================================================================== *)
(** * backend/generators/wan26_t2i.py *)
(* ===================================================================== *)

Module wan26_t2i.

Definition _aspect_ratio_to_size (aspect_ratio : str) : str :=
  let mapping :=
    [("1:1", "1280*1280");
     ("2:3", "800*1200");
     ("3:2", "1200*800");
     ("3:4", "960*1280");
     ("4:3", "1280*960");
     ("9:16", "720*1280");
     ("16:9", "1280*720");
     ("21:9", "1344*576")]%string in
  match List.find (fun kv => str_eqb aspect_ratio (lit (fst kv))) mapping with
  | Some kv => lit (snd kv)
  | None => lit "1280*1280"
  end.

Definition _normalize_size (R : Runtime) (size : option str) (aspect_ratio : str)
    : res str :=
  match size with
  | None | Some [] => Ret (_aspect_ratio_to_size aspect_ratio)
  | Some size =>
    let normalized := replace_char 0x78 0x2A (lower R (strip size)) in
    let normalized := replace_char 0xD7 0x2A normalized in
    let parts := filter (fun p => negb (is_empty p)) (split_char 0x2A normalized) in
    match parts with
    | [w; h] =>
      if isdigit R w && isdigit R h then
        w' <~ int R w ;;
        h' <~ int R h ;;
        Ret (int_str w' ++ lit "*" ++ int_str h')
      else Ret (_aspect_ratio_to_size aspect_ratio)
    | _ => Ret (_aspect_ratio_to_size aspect_ratio)
    end
  end.

(** The dict [{"url": url, "b64": b64}] the extractor returns. *)
Definition reference (url b64 : pyval) : pyval :=
  PDict [(lit "url", url); (lit "b64", b64)].

(** [part.get("image") or part.get("image_url") or part.get("url")] and
    [part.get("b64_json") or part.get("b64") or part.get("base64")] *)
Definition url_field (d : list (str * pyval)) : pyval :=
  py_or (dict_get d "image") (py_or (dict_get d "image_url") (dict_get d "url")).
Definition b64_field (d : list (str * pyval)) : pyval :=
  py_or (dict_get d "b64_json") (py_or (dict_get d "b64") (dict_get d "base64")).

(** [for part in content: ...], [None] when the loop ends without a return. *)
Fixpoint scan_content (content : list pyval) : option pyval :=
  match content with
  | [] => None
  | PDict part :: rest =>
    let url := url_field part in
    let b64 := b64_field part in
    if truthy url || truthy b64 then Some (reference url b64)
    else scan_content rest
  | _ :: rest => scan_content rest
  end.

(** [for choice in choices: ...] *)
Fixpoint scan_choices (choices : list pyval) : option pyval :=
  match choices with
  | [] => None
  | PDict choice :: rest =>
    match py_or (dict_get choice "message") (PDict []) with
    | PDict message =>
      match dict_get message "content" with
      | PList content =>
        match scan_content content with
        | Some r => Some r
        | None => scan_choices rest
        end
      | PDict content =>
        let url := url_field content in
        let b64 := b64_field content in
        if truthy url || truthy b64 then Some (reference url b64)
        else scan_choices rest
      | _ => scan_choices rest
      end
    | _ => scan_choices rest
    end
  | _ :: rest => scan_choices rest
  end.

(** [results[0] or {}] when [results] is a non-empty list and that value is
    a dict. *)
Definition first_result (results : pyval) : option (list (str * pyval)) :=
  match results with
  | PList (r0 :: _) =>
    match py_or r0 (PDict []) with
    | PDict first => Some first
    | _ => None
    end
  | _ => None
  end.

(** [(data.get("output") or {}) if isinstance(data, dict) else {}] *)
Definition output_of (data : pyval) : pyval :=
  match data with
  | PDict d => py_or (dict_get d "output") (PDict [])
  | _ => PDict []
  end.

Definition _extract_image_url_or_b64 (data : pyval) : res pyval :=
  let output := output_of data in
  results <~ get output "results" ;;
  match first_result results with
  | Some first =>
    Ret (reference (dict_get first "url")
           (py_or (dict_get first "b64_json")
              (py_or (dict_get first "b64") (dict_get first "base64"))))
  | None =>
    choices <~ get output "choices" ;;
    match choices with
    | PList (c :: cs) =>
      match scan_choices (c :: cs) with
      | Some r => Ret r
      | None => Ret (reference PNone PNone)
      end
    | _ => Ret (reference PNone PNone)
    end
  end.

(** What a configuration holds under a key that is read with a default,
    [config.get(key, default)]: the key is missing, or it holds a null, or
    a value. Only a missing key gives the default; a null is returned as
    [None]. *)
Inductive setting (A : Type) :=
| Missing
| Null
| Given (a : A).

Arguments Missing {A}.
Arguments Null {A}.
Arguments Given {A} a.

(** The configuration [__init__] reads, each entry with the type the
    constructor uses it at. For [base_url] and [model], read with
    [config.get(key) or default], [None] is a missing key, a null or an
    empty string. For [default_aspect_ratio], [None] is a missing key and
    the value is a string: a null there, which the constructor would keep
    as it is, is not a configuration of this record. *)
Record config := {
  cfg_api_key : str;
  cfg_base_url : option str;
  cfg_model : option str;
  cfg_default_aspect_ratio : option str;
  cfg_prompt_extend : setting bool;
  cfg_watermark : setting bool;
  cfg_timeout_seconds : setting Z;
}.

Record Wan26T2IGenerator := {
  api_key : str;
  base_url : str;
  endpoint_path : str;
  model : str;
  default_aspect_ratio : str;
  prompt_extend : bool;
  watermark : bool;
  default_timeout_seconds : Z;
}.

Definition GENERATION_PATH : string := "/services/aigc/multimodal-generation/generation".

(** Lines 91-92 of [__init__]: a base URL that holds the generation path is
    cut before its first occurrence. *)
Definition strip_generation_path (base_url : str) : str :=
  if contains GENERATION_PATH base_url then
    match split_once GENERATION_PATH base_url with
    | head :: _ => rstrip_chars "/" head
    | [] => base_url
    end
  else base_url.

(** Lines 93-96 of [__init__]: the API version is completed. *)
Definition with_api_version (base_url : str) : str :=
  if endswith base_url "/api" then base_url ++ lit "/v1"
  else if negb (contains "/api/" base_url) && contains "dashscope" base_url
  then base_url ++ lit "/api/v1"
  else base_url.

(** Lines 89-97 of [__init__]: the base URL the generator keeps. *)
Definition init_base_url (configured : option str) : str :=
  let base_url := strip (str_or configured "https://dashscope.aliyuncs.com/api/v1") in
  let base_url := rstrip_chars "/" base_url in
  with_api_version (strip_generation_path base_url).

Definition api_key_missing : exn :=
  Raised ValueError
    [Lit "通义万相 API Key 未配置。"; NL;
     Lit "解决方案：在系统设置页面编辑该服务商，填写 API Key"].

(** [bool(config.get(key, default))] and [int(config.get(key, default))]:
    [bool(None)] is [False], and [int(None)] raises [TypeError]. *)
Definition bool_setting (v : setting bool) (default : bool) : bool :=
  match v with Missing => default | Null => false | Given b => b end.

Definition int_setting (v : setting Z) (default : Z) : res Z :=
  match v with
  | Missing => Ret default
  | Null => Raise (builtin TypeError)
  | Given z => Ret z
  end.

Definition __init__ (c : config) : res Wan26T2IGenerator :=
  if is_empty (cfg_api_key c) then Raise api_key_missing
  else
    timeout_seconds <~ int_setting (cfg_timeout_seconds c) 120 ;;
    Ret {| api_key := cfg_api_key c;
           base_url := init_base_url (cfg_base_url c);
           endpoint_path := lit GENERATION_PATH;
           model := str_or (cfg_model c) "wan2.6-t2i";
           default_aspect_ratio :=
             match cfg_default_aspect_ratio c with Some a => a | None => lit "3:4" end;
           prompt_extend := bool_setting (cfg_prompt_extend c) true;
           watermark := bool_setting (cfg_watermark c) false;
           default_timeout_seconds := timeout_seconds |}.

Definition validate_config (self : Wan26T2IGenerator) : res bool :=
  if is_empty (api_key self) then Raise api_key_missing else Ret true.

Definition request_failed (status : Z) (detail url : str) : exn :=
  Raised Exception
    [Lit "通义万相请求失败 (HTTP "; Val (PInt status); Lit ")"; NL;
     Lit "错误详情: "; Val (PStr detail); NL;
     Lit "请求地址: "; Val (PStr url)].

Definition download_failed (status : Z) : exn :=
  Raised Exception [Lit "通义万相图片下载失败 (HTTP "; Val (PInt status); Lit ")"].

Definition no_image (data : pyval) : exn :=
  Raised Exception [Lit "通义万相响应中未找到图片结果: "; Cut 500 data].

(** Lines 187-189 of [generate_image]: the inline payload to bytes. *)
Definition decode_inline (b64_data : pyval) : res (list byte) :=
  b64_data <~
    match b64_data with
    | PStr s =>
      if startswith s "data:" then
        tail <~ index (split_once "," s) 1 ;; Ret (PStr tail)
      else Ret b64_data
    | _ => Ret b64_data
    end ;;
  Base64.b64decode b64_data.

(** Lines 175-191 of [generate_image]: from the response of the generation
    request to the bytes of the image. *)
Definition resolve (E : env) (resp : response) : M (list byte) :=
  data <- lift (if is_empty (content resp) then Ret (PDict []) else response_json resp) ;;
  extracted <- lift (_extract_image_url_or_b64 data) ;;
  image_url <- lift (get extracted "url") ;;
  b64_data <- lift (get extracted "b64") ;;
  if truthy image_url then
    img_resp <- requests_get E image_url [] 60 ;;
    if negb (status_code img_resp =? 200)%Z then
      raise (download_failed (status_code img_resp))
    else ret (content img_resp)
  else if truthy b64_data then lift (decode_inline b64_data)
  else raise (no_image data).

Definition generate_image (R : Runtime) (E : env) (self : Wan26T2IGenerator)
    (prompt : str) (aspect_ratio model size : option str) (negative_prompt : str)
    (prompt_extend watermark : option bool) : M (list byte) :=
  _ <- lift (validate_config self) ;;
  let aspect_ratio := opt_or aspect_ratio (default_aspect_ratio self) in
  let model := opt_or model (wan26_t2i.model self) in
  final_size <- lift (_normalize_size R size aspect_ratio) ;;
  let final_prompt_extend :=
    match prompt_extend with None => wan26_t2i.prompt_extend self | Some b => b end in
  let final_watermark :=
    match watermark with None => wan26_t2i.watermark self | Some b => b end in
  let url := base_url self ++ endpoint_path self in
  let payload :=
    PDict
      [(lit "model", PStr model);
       (lit "input",
        PDict
          [(lit "messages",
            PList
              [PDict
                 [(lit "role", PStr (lit "user"));
                  (lit "content", PList [PDict [(lit "text", PStr prompt)]])]])]);
       (lit "parameters",
        PDict
          [(lit "negative_prompt", PStr negative_prompt);
           (lit "prompt_extend", PBool final_prompt_extend);
           (lit "watermark", PBool final_watermark);
           (lit "n", PInt 1);
           (lit "size", PStr final_size)])] in
  let headers :=
    [("Authorization"%string, lit "Bearer " ++ api_key self);
     ("Content-Type"%string, lit "application/json")] in
  resp <- requests_post E url headers payload (default_timeout_seconds self) ;;
  if negb (status_code resp =? 200)%Z then
    raise (request_failed (status_code resp) (slice_to 500 (text resp)) url)
  else resolve E resp.

End wan26_t2i.

(* ===================================================================== *)
(** * backend/generators/modelscope_z_image.py *)
(* ===================================================================== *)

Module modelscope_z_image.

(** The configuration [__init__] reads, each entry with the type the
    constructor uses it at; [None] is a missing key or a null. *)
Record config := {
  cfg_api_key : str;
  cfg_base_url : option str;
  cfg_endpoint_type : option str;
  cfg_model : option str;
  cfg_task_endpoint : option str;
  cfg_poll_interval_seconds : option Q;
  cfg_max_wait_seconds : option Q;
  cfg_max_prompt_chars : option Z;
  cfg_size : pyval;
}.

Record ModelScopeZImageGenerator := {
  api_key : str;
  config_size : pyval;               (* self.config.get("size") *)
  base_url : str;
  endpoint_type : str;
  model : str;
  task_endpoint : str;
  poll_interval_seconds : Q;
  max_wait_seconds : Q;
  max_prompt_chars : Z;
}.

(** [re.search(r'^/(v\d+)', endpoint_type)]: group 1 of the match. *)
Definition version_match (R : Runtime) (endpoint_type : str) : option str :=
  match endpoint_type with
  | c0 :: c1 :: rest =>
    if ((c0 =? 0x2F) && (c1 =? 0x76))%N then
      match takewhile (isdecimal_char R) rest with
      | [] => None
      | digits => Some (0x76%N :: digits)
      end
    else None
  | _ => None
  end.

(** What the pattern [^/(v\d+)] matches at the start of the endpoint path
    [e]: [v] is [/v] and the decimal digits that follow it, all of them and
    at least one. Nothing is asked of what comes after the digits: in
    [/v1beta/models] the match is [/v1]. *)
Definition version_prefix (R : Runtime) (e v : str) : Prop :=
  exists digits rest,
    digits <> []
    /\ forallb (isdecimal_char R) digits = true
    /\ match rest with [] => True | c :: _ => isdecimal_char R c = false end
    /\ v = lit "/v" ++ digits
    /\ e = v ++ rest.

(** Lines 17-31 of [__init__]: the base URL and the endpoint path the
    generator keeps. *)
Definition init_urls (R : Runtime) (configured_base configured_endpoint : option str)
    : str * str :=
  let base_url :=
    rstrip_chars "/" (strip (str_or configured_base "https://api-inference.modelscope.cn")) in
  let endpoint_type := strip (str_or configured_endpoint "/v1/images/generations") in
  let endpoint_type :=
    if negb (startswith endpoint_type "/") then lit "/" ++ endpoint_type
    else endpoint_type in
  let base_url :=
    match version_match R endpoint_type with
    | Some group1 =>
      let version_prefix := lit "/" ++ group1 in
      if suffix_of version_prefix base_url then
        rstrip_chars "/" (slice_drop_last (List.length version_prefix) base_url)
      else base_url
    | None =>
      if endswith base_url "/v1" && startswith endpoint_type "/v1" then
        rstrip_chars "/" (slice_drop_last 3 base_url)
      else base_url
    end in
  (base_url, endpoint_type).

Definition __init__ (R : Runtime) (c : config) : ModelScopeZImageGenerator :=
  let urls := init_urls R (cfg_base_url c) (cfg_endpoint_type c) in
  let task_endpoint := strip (str_or (cfg_task_endpoint c) "/v1/tasks") in
  {| api_key := cfg_api_key c;
     config_size := cfg_size c;
     base_url := fst urls;
     endpoint_type := snd urls;
     model := str_or (cfg_model c) "Tongyi-MAI/Z-Image-Turbo";
     task_endpoint :=
       if negb (startswith task_endpoint "/") then lit "/" ++ task_endpoint
       else task_endpoint;
     poll_interval_seconds :=
       match cfg_poll_interval_seconds c with
       | Some q => if (Qnum q =? 0)%Z then 3%Q else q
       | None => 3%Q
       end;
     max_wait_seconds :=
       match cfg_max_wait_seconds c with
       | Some q => if (Qnum q =? 0)%Z then 300%Q else q
       | None => 300%Q
       end;
     max_prompt_chars :=
       match cfg_max_prompt_chars c with
       | Some z => if (z =? 0)%Z then 1900%Z else z
       | None => 1900%Z
       end |}.

Definition _normalize_prompt (self : ModelScopeZImageGenerator) (prompt : option str)
    : str :=
  let text := strip (match prompt with Some p => p | None => [] end) in
  let max_chars := max_prompt_chars self in
  let max_chars := if (max_chars <? 100)%Z then 100%Z else max_chars in
  if (Z.of_nat (List.length text) <=? max_chars)%Z then text
  else rstrip (slice_to (Z.to_nat max_chars) text).

Definition api_key_missing : exn :=
  Raised ValueError
    [Lit "ModelScope API Key 未配置。"; NL;
     Lit "解决方案：在系统设置页面编辑该服务商，填写 API Key"].

Definition base_url_missing : exn :=
  Raised ValueError
    [Lit "ModelScope Base URL 未配置。"; NL;
     Lit "解决方案：在系统设置页面编辑该服务商，填写 Base URL（例如 https://api-inference.modelscope.cn）"].

Definition model_missing : exn :=
  Raised ValueError
    [Lit "ModelScope 模型未配置。"; NL;
     Lit "解决方案：在系统设置页面编辑该服务商，填写模型（例如 Tongyi-MAI/Z-Image-Turbo）"].

Definition validate_config (self : ModelScopeZImageGenerator) : res bool :=
  if is_empty (api_key self) then Raise api_key_missing
  else if is_empty (base_url self) then Raise base_url_missing
  else Ret true.

Definition create_failed (status : Z) (create_url detail : str) : exn :=
  Raised Exception
    [Lit "ModelScope 图片生成请求失败 (状态码: "; Val (PInt status); Lit ")"; NL;
     Lit "请求地址: "; Val (PStr create_url); NL;
     Lit "错误详情: "; Val (PStr detail)].

Definition no_task_id (data : pyval) : exn :=
  Raised Exception
    [Lit "ModelScope 响应中未找到 task_id。"; NL; Lit "响应片段: "; Cut 800 data].

Definition task_timeout (max_wait_seconds : Q) (task_id last_status : pyval) : exn :=
  Raised Exception
    [Lit "ModelScope 任务超时（"; Val (PFloat max_wait_seconds);
     Lit "s）。task_id="; Val task_id; Lit ", last_status="; Val last_status].

Definition query_failed (status : Z) (task_url detail : str) : exn :=
  Raised Exception
    [Lit "ModelScope 任务查询失败 (状态码: "; Val (PInt status); Lit ")"; NL;
     Lit "请求地址: "; Val (PStr task_url); NL;
     Lit "错误详情: "; Val (PStr detail)].

Definition no_output_images (task_data : pyval) : exn :=
  Raised Exception
    [Lit "ModelScope 任务成功但未返回图片地址。"; NL; Lit "响应片段: "; Cut 800 task_data].

Definition invalid_image_url (task_data : pyval) : exn :=
  Raised Exception
    [Lit "ModelScope 返回的图片地址无效。"; NL; Lit "响应片段: "; Cut 800 task_data].

Definition download_failed (status : Z) (image_url detail : str) : exn :=
  Raised Exception
    [Lit "下载图片失败 (状态码: "; Val (PInt status); Lit ")"; NL;
     Lit "图片地址: "; Val (PStr image_url); NL;
     Lit "错误详情: "; Val (PStr detail)].

Definition generation_failed (error_msg : pyval) : exn :=
  Raised Exception [Lit "ModelScope 图片生成失败: "; Val error_msg].

(** [(task_data.get("task_status") or task_data.get("status") or "").upper()] *)
Definition read_status (R : Runtime) (task_data : pyval) : res str :=
  a <~ get task_data "task_status" ;;
  b <~ get task_data "status" ;;
  match py_or a (py_or b (PStr [])) with
  | PStr s => Ret (upper R s)
  | _ => Raise (builtin AttributeError)
  end.

(** The branch [if task_status == "SUCCEED": ...] *)
Definition on_succeed (E : env) (task_data : pyval) : M (list byte) :=
  images <- lift (get task_data "output_images") ;;
  match py_or images (PList []) with
  | PList (image_url :: _) =>
    match image_url with
    | PStr u =>
      if is_empty (strip u) then raise (invalid_image_url task_data)
      else
        img_resp <- requests_get E (PStr u) [] 120 ;;
        if negb (status_code img_resp =? 200)%Z then
          raise (download_failed (status_code img_resp) u (slice_to 200 (text img_resp)))
        else ret (content img_resp)
    | _ => raise (invalid_image_url task_data)
    end
  | _ => raise (no_output_images task_data)
  end.

(** The branch [if task_status == "FAILED": ...] *)
Definition on_failed (task_data : pyval) : M (list byte) :=
  message <- lift (get task_data "message") ;;
  error <- lift (get task_data "error") ;;
  output <- lift (get task_data "output") ;;
  let error_msg := py_or message (py_or error (py_or output (PStr (lit "未知错误")))) in
  raise (generation_failed error_msg).

(** The loop [while True: ...] of [generate_image], run for at most [fuel]
    iterations. *)
Fixpoint poll_loop (fuel : nat) (R : Runtime) (E : env) (self : ModelScopeZImageGenerator)
    (task_id : pyval) (task_url : str) (status_headers : list (string * str))
    (deadline : Q) (last_status : pyval) : M (list byte) :=
  match fuel with
  | O => lift Unfinished
  | S fuel =>
    t <- time_time ;;
    if negb (Qle_bool t deadline) then
      raise (task_timeout (max_wait_seconds self) task_id last_status)
    else
      status_resp <- requests_get E (PStr task_url) status_headers 60 ;;
      if negb (status_code status_resp =? 200)%Z then
        raise (query_failed (status_code status_resp) task_url
                 (slice_to 800 (text status_resp)))
      else
        json <- lift (response_json status_resp) ;;
        let task_data := py_or json (PDict []) in
        task_status <- lift (read_status R task_data) ;;
        let last_status := if is_empty task_status then last_status else PStr task_status in
        if str_eqb task_status (lit "SUCCEED") then on_succeed E task_data
        else if str_eqb task_status (lit "FAILED") then on_failed task_data
        else
          _ <- time_sleep E (poll_interval_seconds self) ;;
          poll_loop fuel R E self task_id task_url status_headers deadline last_status
  end.

Definition generate_image (fuel : nat) (R : Runtime) (E : env)
    (self : ModelScopeZImageGenerator) (prompt : option str) (model : option str)
    (size : pyval) : M (list byte) :=
  _ <- lift (validate_config self) ;;
  let model_id := strip (opt_or model (modelscope_z_image.model self)) in
  if is_empty model_id then raise model_missing
  else
    let normalized_prompt := _normalize_prompt self prompt in
    let create_url := base_url self ++ endpoint_type self in
    let headers :=
      [("Authorization"%string, lit "Bearer " ++ api_key self);
       ("Content-Type"%string, lit "application/json");
       ("X-ModelScope-Async-Mode"%string, lit "true")] in
    let payload :=
      PDict
        [(lit "model", PStr model_id);
         (lit "prompt", PStr normalized_prompt);
         (lit "n", PInt 1);
         (lit "size", py_or size (py_or (config_size self) (PStr (lit "1024x1024"))))] in
    response <- requests_post E create_url headers payload 60 ;;
    if negb (status_code response =? 200)%Z then
      raise (create_failed (status_code response) create_url
               (slice_to 800 (text response)))
    else
      json <- lift (response_json response) ;;
      let data := py_or json (PDict []) in
      a <- lift (get data "task_id") ;;
      b <- lift (get data "id") ;;
      let task_id := py_or a b in
      if negb (truthy task_id) then raise (no_task_id data)
      else
        let task_url :=
          base_url self ++ task_endpoint self ++ lit "/" ++ to_str R task_id in
        let status_headers :=
          [("Authorization"%string, lit "Bearer " ++ api_key self);
           ("Content-Type"%string, lit "application/json");
           ("X-ModelScope-Task-Type"%string, lit "image_generation")] in
        t <- time_time ;;
        let deadline := (t + max_wait_seconds self)%Q in
        poll_loop fuel R E self task_id task_url status_headers deadline PNone.

End modelscope_z_image.

(* ===================================================================== *)
(** * Concrete interpreters, servers and runs *)
(* ===================================================================== *)

Module Examples.

(** An interpreter whose character database stops at Latin-1: above it no
    character has a case or is a digit. *)
Definition latin1_runtime : Runtime :=
  {| ucd_lower := map lower_latin1;
     ucd_upper := fun c => [c];
     ucd_isdigit := fun _ => false;
     ucd_decimal := fun _ => None;
     int_max_str_digits := 4300;
     repr := fun _ => lit "..." |}.

(** A server that answers the n-th request with the n-th response of a
    script, each after half a second, and a clock that never oversleeps. *)
Definition scripted (rs : list response) : env :=
  {| reply := fun n _ =>
       match nth_error rs n with
       | Some r => inr r
       | None => inl (builtin RequestException)
       end;
     latency := fun _ => (1 # 2)%Q;
     oversleep := fun _ => 0%Q |}.

(** A server that answers every request with the same response. *)
Definition constant (r : response) : env :=
  {| reply := fun _ _ => inr r;
     latency := fun _ => (1 # 2)%Q;
     oversleep := fun _ => 0%Q |}.

Definition start : world := {| now := 0%Q; sent := []; naps := [] |}.

Definition json_response (status : Z) (doc : pyval) : response :=
  {| status_code := status; text := lit "(json)";
     content := list_byte_of_string "(json)"; json := Some doc |}.

Definition bytes_response (status : Z) (body : list byte) : response :=
  {| status_code := status; text := []; content := body; json := None |}.

Definition wan : wan26_t2i.Wan26T2IGenerator :=
  {| wan26_t2i.api_key := lit "sk-test";
     wan26_t2i.base_url := lit "https://dashscope.aliyuncs.com/api/v1";
     wan26_t2i.endpoint_path := lit wan26_t2i.GENERATION_PATH;
     wan26_t2i.model := lit "wan2.6-t2i";
     wan26_t2i.default_aspect_ratio := lit "3:4";
     wan26_t2i.prompt_extend := true;
     wan26_t2i.watermark := false;
     wan26_t2i.default_timeout_seconds := 120 |}.

Definition modelscope : modelscope_z_image.ModelScopeZImageGenerator :=
  {| modelscope_z_image.api_key := lit "ms-test";
     modelscope_z_image.config_size := PNone;
     modelscope_z_image.base_url := lit "https://api-inference.modelscope.cn";
     modelscope_z_image.endpoint_type := lit "/v1/images/generations";
     modelscope_z_image.model := lit "Tongyi-MAI/Z-Image-Turbo";
     modelscope_z_image.task_endpoint := lit "/v1/tasks";
     modelscope_z_image.poll_interval_seconds := 3%Q;
     modelscope_z_image.max_wait_seconds := 300%Q;
     modelscope_z_image.max_prompt_chars := 1900 |}.

(** [{"output": {"results": [{"b64_json": payload}]}}] *)
Definition inline_document (payload : str) : pyval :=
  PDict [(lit "output",
          PDict [(lit "results", PList [PDict [(lit "b64_json", PStr payload)]])])].

Definition hello : list byte := list_byte_of_string "hello".

(** [{"output": {"results": [{"url": "http://x/img.png", "b64_json": "aGVsbG8="}]}}] *)
Definition url_and_inline_document : pyval :=
  PDict [(lit "output",
          PDict [(lit "results",
                  PList [PDict [(lit "url", PStr (lit "http://x/img.png"));
                                (lit "b64_json", PStr (lit "aGVsbG8="))]])])].

Definition wan_run (E : env) : res (list byte) * world :=
  wan26_t2i.generate_image latin1_runtime E wan (lit "a red fox") None None None []
    None None start.

(** The bodies of the asynchronous scenarios of the specification. *)
Definition created : pyval := PDict [(lit "task_id", PStr (lit "abc"))].
Definition running : pyval := PDict [(lit "task_status", PStr (lit "RUNNING"))].
Definition succeeded : pyval :=
  PDict [(lit "task_status", PStr (lit "SUCCEED"));
         (lit "output_images", PList [PStr (lit "http://x/img.png")])].
Definition failed : pyval :=
  PDict [(lit "task_status", PStr (lit "FAILED"));
         (lit "message", PStr (lit "nsfw content"))].

Definition png : list byte := [x89; x50; x4e; x47].

Definition modelscope_run (self : modelscope_z_image.ModelScopeZImageGenerator) (E : env)
    : res (list byte) * world :=
  modelscope_z_image.generate_image 200 latin1_runtime E self (Some (lit "a red fox"))
    None PNone start.



(** The generation request answered with a document that names a URL, the
    download of that URL answered with the image. *)
Definition url_then_image : env :=
  scripted [json_response 200 url_and_inline_document; bytes_response 200 png].

(** A server that refuses everything with status 500. *)
Definition refusing : env := constant (json_response 500 (PDict [])).

(** A server that answers everything with status 200 and an empty body. *)
Definition silent : env := constant (bytes_response 200 []).

(** The asynchronous scenario that succeeds at the second poll. *)
Definition happy_path : env :=
  scripted [json_response 200 created; json_response 200 running;
            json_response 200 succeeded; bytes_response 200 png].

(** A server that answers everything with status 200 and the empty document. *)
Definition anonymous : env := constant (json_response 200 (PDict [])).

End Examples.

(* ===================================================================== *)
(** * Notions the properties are stated with *)
(* ===================================================================== *)

Module Notions.


(** The answer to a task creation names the task [task_id]: status 200 and
    a non-empty [task_id], or else [id], in its document. *)
Definition names_task (created : response) (task_id : pyval) : Prop :=
  status_code created = 200%Z
  /\ exists doc a b,
       json created = Some doc
       /\ get (py_or doc (PDict [])) "task_id" = Ret a
       /\ get (py_or doc (PDict [])) "id" = Ret b
       /\ task_id = py_or a b
       /\ truthy task_id = true.

(** The answer to a poll reports success with [u] as its first image:
    status 200, the task status [SUCCEED] in any letter case, and a list
    [output_images] whose first element is the string [u], not blank. *)
Definition succeeded_with (R : Runtime) (answer : response) (u : str) : Prop :=
  status_code answer = 200%Z
  /\ exists doc images more,
       json answer = Some doc
       /\ modelscope_z_image.read_status R (py_or doc (PDict [])) = Ret (lit "SUCCEED")
       /\ get (py_or doc (PDict [])) "output_images" = Ret images
       /\ py_or images (PList []) = PList (PStr u :: more)
       /\ is_empty (strip u) = false.


(** The specification's reading of C8: the endpoint path [e] starts with
    the version segment [v], a whole path segment [/v1], [/v2], ...; after
    the digits comes a slash, or nothing. *)
Definition version_segment (R : Runtime) (e v : str) : Prop :=
  exists digits rest,
    digits <> []
    /\ forallb (isdecimal_char R) digits = true
    /\ (rest = [] \/ exists t, rest = 0x2F%N :: t)
    /\ v = lit "/v" ++ digits
    /\ e = v ++ rest.

(** [head] is what is left of the base URL [s] once the generation path is
    taken out: [s] itself when it does not hold the path, and otherwise what
    stands before the first occurrence of the path, without the slashes at
    its end. *)
Definition before_generation_path (s head : str) : Prop :=
  ((forall pre post, s <> pre ++ lit wan26_t2i.GENERATION_PATH ++ post) /\ head = s)
  \/ exists pre post,
       s = pre ++ lit wan26_t2i.GENERATION_PATH ++ post
       /\ (forall pre' post',
             s = pre' ++ lit wan26_t2i.GENERATION_PATH ++ post' ->
             (List.length pre <= List.length pre')%nat)
       /\ head = rstrip_chars "/" pre.

(** [result] is [head] with the API version completed: [/v1] after a final
    [/api]; [/api/v1] when [head] mentions [dashscope] and holds no [/api/];
    and [head] as it is in every other case. *)
Definition completes_version (head result : str) : Prop :=
  (endswith head "/api" = true /\ result = head ++ lit "/v1")
  \/ (endswith head "/api" = false /\ contains "/api/" head = false
      /\ contains "dashscope" head = true /\ result = head ++ lit "/api/v1")
  \/ (endswith head "/api" = false
      /\ (contains "/api/" head = true \/ contains "dashscope" head = false)
      /\ result = head).

(** A character of ASCII. *)
Definition ascii_char (c : N) : bool := (c <? 0x80)%N.

(** The request that creates the task (lines 84-98 of [generate_image]),
    and the request that polls the task [task_id] (lines 116-131). *)
Definition create_request (self : modelscope_z_image.ModelScopeZImageGenerator)
    (prompt model : option str) (size : pyval) : request :=
  post_request
    (modelscope_z_image.base_url self ++ modelscope_z_image.endpoint_type self)
    [("Authorization"%string, lit "Bearer " ++ modelscope_z_image.api_key self);
     ("Content-Type"%string, lit "application/json");
     ("X-ModelScope-Async-Mode"%string, lit "true")]
    (PDict
       [(lit "model", PStr (strip (opt_or model (modelscope_z_image.model self))));
        (lit "prompt", PStr (modelscope_z_image._normalize_prompt self prompt));
        (lit "n", PInt 1);
        (lit "size",
         py_or size (py_or (modelscope_z_image.config_size self) (PStr (lit "1024x1024"))))])
    60.

Definition poll_request (R : Runtime) (self : modelscope_z_image.ModelScopeZImageGenerator)
    (task_id : pyval) : request :=
  get_request
    (PStr (modelscope_z_image.base_url self ++ modelscope_z_image.task_endpoint self
           ++ lit "/" ++ to_str R task_id))
    [("Authorization"%string, lit "Bearer " ++ modelscope_z_image.api_key self);
     ("Content-Type"%string, lit "application/json");
     ("X-ModelScope-Task-Type"%string, lit "image_generation")]
    60.

End Notions.

(* ===================================================================== *)
(** * Facts about strings *)
(* ===================================================================== *)

Module StrFacts.

Section Trim.
Context {A : Type} (p : A -> bool).

Lemma dropwhile_length (l : list A) :
  (List.length (dropwhile p l) <= List.length l)%nat.
Proof.
  induction l as [|x t IH]; simpl; [lia|].
  destruct (p x); simpl; lia.
Qed.

Lemma dropwhile_idem (l : list A) : dropwhile p (dropwhile p l) = dropwhile p l.
Proof.
  induction l as [|x t IH]; simpl; [reflexivity|].
  destruct (p x) eqn:Hx; [exact IH|].
  simpl. now rewrite Hx.
Qed.

(** A list the left trim leaves alone is empty or starts with a kept item. *)
Lemma dropwhile_fix (l : list A) :
  dropwhile p l = l <-> l = [] \/ exists x t, l = x :: t /\ p x = false.
Proof.
  split.
  - destruct l as [|x t]; [now left|]. intros H. right. exists x, t. split; [reflexivity|].
    simpl in H. destruct (p x) eqn:Hx; [|reflexivity].
    pose proof (dropwhile_length t) as Hl. rewrite H in Hl. simpl in Hl. lia.
  - intros [->|(x & t & -> & Hx)]; simpl; [reflexivity|]. now rewrite Hx.
Qed.

Lemma dropwhile_snoc (l : list A) (x : A) :
  p x = false -> dropwhile p (l ++ [x]) = dropwhile p l ++ [x].
Proof.
  intros Hx. induction l as [|y t IH]; simpl.
  - now rewrite Hx.
  - destruct (p y); [exact IH|reflexivity].
Qed.

Lemma rstrip_by_idem (l : list A) : rstrip_by p (rstrip_by p l) = rstrip_by p l.
Proof. unfold rstrip_by. now rewrite rev_involutive, dropwhile_idem. Qed.

Lemma rstrip_by_length (l : list A) : (List.length (rstrip_by p l) <= List.length l)%nat.
Proof.
  unfold rstrip_by. rewrite length_rev.
  pose proof (dropwhile_length (rev l)) as H. now rewrite length_rev in H.
Qed.

Lemma rstrip_by_cons_kept (x : A) (t : list A) :
  p x = false -> exists t', rstrip_by p (x :: t) = x :: t'.
Proof.
  intros Hx. unfold rstrip_by. simpl. rewrite (dropwhile_snoc _ _ Hx), rev_app_distr.
  simpl. now eexists.
Qed.

(** Trimming on the right keeps a list trimmed on the left. *)
Lemma rstrip_by_keeps_left (l : list A) :
  dropwhile p l = l -> dropwhile p (rstrip_by p l) = rstrip_by p l.
Proof.
  intros H. apply dropwhile_fix in H as [->|(x & t & -> & Hx)]; [reflexivity|].
  destruct (rstrip_by_cons_kept x t Hx) as [t' ->]. simpl. now rewrite Hx.
Qed.

Lemma firstn_keeps_left (n : nat) (l : list A) :
  dropwhile p l = l -> dropwhile p (firstn n l) = firstn n l.
Proof.
  intros H. apply dropwhile_fix in H as [->|(x & t & -> & Hx)].
  - now rewrite firstn_nil.
  - destruct n; simpl; [reflexivity|]. now rewrite Hx.
Qed.

End Trim.

Lemma rstrip_idem (s : str) : rstrip (rstrip s) = rstrip s.
Proof. apply (rstrip_by_idem isspace). Qed.

Lemma lstrip_idem (s : str) : lstrip (lstrip s) = lstrip s.
Proof. apply dropwhile_idem. Qed.

Lemma rstrip_length (s : str) : (List.length (rstrip s) <= List.length s)%nat.
Proof. apply (rstrip_by_length isspace). Qed.

Lemma rstrip_keeps_left (s : str) : lstrip s = s -> lstrip (rstrip s) = rstrip s.
Proof. apply (rstrip_by_keeps_left isspace). Qed.

Lemma lstrip_strip (s : str) : lstrip (strip s) = strip s.
Proof. unfold strip. apply rstrip_keeps_left, lstrip_idem. Qed.

Lemma rstrip_strip (s : str) : rstrip (strip s) = strip s.
Proof. unfold strip. apply rstrip_idem. Qed.

Lemma strip_idem (s : str) : strip (strip s) = strip s.
Proof. unfold strip at 1. now rewrite lstrip_strip, rstrip_strip. Qed.

Lemma str_eqb_neq (a b : str) : a <> b -> str_eqb a b = false.
Proof. intros H. unfold str_eqb. now destruct (list_eq_dec N.eq_dec a b). Qed.

Lemma str_eqb_refl (a : str) : str_eqb a a = true.
Proof. unfold str_eqb. now destruct (list_eq_dec N.eq_dec a a). Qed.

Lemma prefix_of_app (p s : str) : prefix_of p (p ++ s) = true.
Proof. induction p as [|c p IH]; simpl; [reflexivity|]. now rewrite N.eqb_refl. Qed.

Lemma prefix_of_true (p s : str) : prefix_of p s = true -> exists t, s = p ++ t.
Proof.
  revert s. induction p as [|c p IH]; intros s H; simpl in *.
  - now exists s.
  - destruct s as [|d s]; [discriminate|].
    apply andb_prop in H as [Hc Hp]. apply N.eqb_eq in Hc. subst d.
    destruct (IH s Hp) as [t ->]. now exists t.
Qed.

Lemma suffix_of_app (pre v : str) : suffix_of v (pre ++ v) = true.
Proof. unfold suffix_of. rewrite rev_app_distr. apply prefix_of_app. Qed.

Lemma suffix_of_true (v s : str) : suffix_of v s = true -> exists pre, s = pre ++ v.
Proof.
  unfold suffix_of. intros H. apply prefix_of_true in H as [t Ht].
  exists (rev t). rewrite <- (rev_involutive s), Ht, rev_app_distr.
  now rewrite rev_involutive.
Qed.

Lemma slice_drop_last_app (pre v : str) : slice_drop_last (List.length v) (pre ++ v) = pre.
Proof.
  unfold slice_drop_last. rewrite length_app, Nat.add_sub.
  rewrite firstn_app, Nat.sub_diag, firstn_all. cbn. apply app_nil_r.
Qed.

Lemma takewhile_dropwhile {A} (p : A -> bool) (l : list A) :
  takewhile p l ++ dropwhile p l = l.
Proof.
  induction l as [|x t IH]; simpl; [reflexivity|].
  destruct (p x); simpl; [now rewrite IH|reflexivity].
Qed.

Lemma takewhile_all {A} (p : A -> bool) (l : list A) : forallb p (takewhile p l) = true.
Proof.
  induction l as [|x t IH]; simpl; [reflexivity|].
  destruct (p x) eqn:Hx; simpl; [now rewrite Hx|reflexivity].
Qed.

(** A run of items that pass, followed by nothing or by one that fails. *)
Lemma takewhile_app {A} (p : A -> bool) (run rest : list A) :
  forallb p run = true ->
  match rest with [] => True | c :: _ => p c = false end ->
  takewhile p (run ++ rest) = run.
Proof.
  intros Hrun Hrest. induction run as [|x t IH]; simpl in *.
  - destruct rest as [|c rest]; simpl; [reflexivity|now rewrite Hrest].
  - apply andb_prop in Hrun as [Hx Ht]. rewrite Hx. now rewrite IH.
Qed.

End StrFacts.

(* ===================================================================== *)
(** * The prompt normalizer *)
(* ===================================================================== *)

Module PromptFacts.
Import modelscope_z_image StrFacts.

(** C6. Whatever the prompt (a string or [None]) and the configured
    maximum, [_normalize_prompt] returns a string of at most
    [max(max_prompt_chars, 100)] characters with no whitespace at either
    end: trimming it again, on the right or on the left, changes nothing.
    The function is total: it returns a string on every input. *)
Theorem normalize_prompt_bounded (self : ModelScopeZImageGenerator) (prompt : option str) :
  (Z.of_nat (List.length (_normalize_prompt self prompt))
     <= Z.max (max_prompt_chars self) 100)%Z
  /\ rstrip (_normalize_prompt self prompt) = _normalize_prompt self prompt
  /\ lstrip (_normalize_prompt self prompt) = _normalize_prompt self prompt.
Proof.
  unfold _normalize_prompt.
  set (text := strip match prompt with Some p => p | None => [] end).
  set (m := if (max_prompt_chars self <? 100)%Z then 100%Z else max_prompt_chars self).
  assert (Hm : m = Z.max (max_prompt_chars self) 100).
  { unfold m. destruct (Z.ltb_spec (max_prompt_chars self) 100); lia. }
  destruct (Z.leb_spec (Z.of_nat (List.length text)) m) as [Hle|Hgt].
  - repeat split.
    + lia.
    + apply rstrip_strip.
    + apply lstrip_strip.
  - repeat split.
    + pose proof (rstrip_length (slice_to (Z.to_nat m) text)) as H1.
      unfold slice_to in *. rewrite length_firstn in H1. lia.
    + apply rstrip_idem.
    + apply rstrip_keeps_left. unfold slice_to, lstrip, lstrip_by.
      apply firstn_keeps_left. apply lstrip_strip.
Qed.

End PromptFacts.

(* ===================================================================== *)
(** * base64: decoding undoes encoding *)
(* ===================================================================== *)

Module Base64Facts.
Import Base64.

(** Facts about bytes are checked on all 256 of them. *)
Lemma N_below_cases (k : nat) (P : N -> bool) :
  forallb (fun n => P (N.of_nat n)) (seq 0 k) = true ->
  forall n, (n < N.of_nat k)%N -> P n = true.
Proof.
  intros H n Hn. rewrite forallb_forall in H.
  specialize (H (N.to_nat n)). rewrite N2Nat.id in H.
  apply H, in_seq. lia.
Qed.

Lemma byte_cases (P : N -> bool) :
  forallb (fun n => P (N.of_nat n)) (seq 0 256) = true ->
  forall x : byte, P (Byte.to_N x) = true.
Proof.
  intros H x. apply (N_below_cases 256 P H).
  pose proof (Byte.to_N_bounded x). lia.
Qed.

Lemma byte_pair_cases (P : N -> N -> bool) :
  forallb (fun a => forallb (fun b => P (N.of_nat a) (N.of_nat b)) (seq 0 256))
    (seq 0 256) = true ->
  forall x y : byte, P (Byte.to_N x) (Byte.to_N y) = true.
Proof.
  intros H x y.
  apply (byte_cases (fun a => P a (Byte.to_N y))).
  apply forallb_forall. intros a Ha.
  rewrite forallb_forall in H. specialize (H a Ha).
  apply (byte_cases (fun b => P (N.of_nat a) b) H).
Qed.

Lemma uchar_to_N (x : byte) (n : N) : (n mod 256 =? Byte.to_N x)%N = true -> uchar n = x.
Proof.
  intros H. apply N.eqb_eq in H. unfold uchar. now rewrite H, Byte.of_to_N.
Qed.

(** Every 6-bit group is a letter of the alphabet: an ASCII character that
    is not the pad and that the decoding table maps back. *)
Lemma alphabet (s : N) :
  (s < 64)%N ->
  (table_b2a s =? BASE64_PAD)%N = false
  /\ table_a2b (table_b2a s) = Some s
  /\ (table_b2a s <? 128)%N = true
  /\ (table_b2a s =? 58)%N = false.
Proof.
  intros Hs.
  pose proof (N_below_cases 64
    (fun s => negb (table_b2a s =? BASE64_PAD)%N
              && (match table_a2b (table_b2a s) with
                  | Some t => (t =? s)%N
                  | None => false
                  end)
              && (table_b2a s <? 128)%N
              && negb (table_b2a s =? 58)%N) eq_refl s Hs) as H.
  simpl in H. apply andb_prop in H as [H H4]. apply andb_prop in H as [H H3].
  apply andb_prop in H as [H1 H2].
  apply negb_true_iff in H1, H4.
  destruct (table_a2b (table_b2a s)) as [t|]; [|discriminate].
  apply N.eqb_eq in H2. subst t. auto.
Qed.

Lemma sextets_small (x y : byte) :
  (sextet0 (Byte.to_N x) < 64 /\ sextet1 (Byte.to_N x) (Byte.to_N y) < 64
   /\ sextet2 (Byte.to_N x) (Byte.to_N y) < 64 /\ sextet3 (Byte.to_N x) < 64
   /\ sextet1 (Byte.to_N x) 0 < 64 /\ sextet2 (Byte.to_N x) 0 < 64)%N.
Proof.
  pose proof (byte_pair_cases
    (fun a b => (sextet0 a <? 64) && (sextet1 a b <? 64) && (sextet2 a b <? 64)
                && (sextet3 a <? 64) && (sextet1 a 0 <? 64) && (sextet2 a 0 <? 64))%N
    ltac:(vm_compute; reflexivity) x y) as H.
  simpl in H.
  repeat (apply andb_prop in H as [H ?]).
  repeat match goal with H : (_ <? _)%N = true |- _ => apply N.ltb_lt in H end.
  auto 10.
Qed.

(** What the decoder writes for the three steps of a group. *)
Lemma first_byte (x y : byte) :
  uchar (N.lor (N.shiftl (sextet0 (Byte.to_N x)) 2)
           (N.shiftr (sextet1 (Byte.to_N x) (Byte.to_N y)) 4)) = x.
Proof.
  apply uchar_to_N.
  apply (byte_pair_cases
    (fun a b => (N.lor (N.shiftl (sextet0 a) 2) (N.shiftr (sextet1 a b) 4) mod 256 =? a)%N)
    ltac:(vm_compute; reflexivity) x y).
Qed.

Lemma first_byte_alone (x : byte) :
  uchar (N.lor (N.shiftl (sextet0 (Byte.to_N x)) 2)
           (N.shiftr (sextet1 (Byte.to_N x) 0) 4)) = x.
Proof.
  apply uchar_to_N.
  apply (byte_cases
    (fun a => (N.lor (N.shiftl (sextet0 a) 2) (N.shiftr (sextet1 a 0) 4) mod 256 =? a)%N)
    ltac:(vm_compute; reflexivity) x).
Qed.

Lemma second_byte (x y z : byte) :
  uchar (N.lor (N.shiftl (N.land (sextet1 (Byte.to_N x) (Byte.to_N y)) 0x0f) 4)
           (N.shiftr (sextet2 (Byte.to_N y) (Byte.to_N z)) 2)) = y.
Proof.
  assert (H : N.land (sextet1 (Byte.to_N x) (Byte.to_N y)) 0x0f = N.shiftr (Byte.to_N y) 4).
  { apply N.eqb_eq.
    apply (byte_pair_cases (fun a b => (N.land (sextet1 a b) 0x0f =? N.shiftr b 4)%N)
             ltac:(vm_compute; reflexivity) x y). }
  rewrite H. apply uchar_to_N.
  apply (byte_pair_cases
    (fun b c => (N.lor (N.shiftl (N.shiftr b 4) 4) (N.shiftr (sextet2 b c) 2) mod 256 =? b)%N)
    ltac:(vm_compute; reflexivity) y z).
Qed.

Lemma second_byte_alone (x y : byte) :
  uchar (N.lor (N.shiftl (N.land (sextet1 (Byte.to_N x) (Byte.to_N y)) 0x0f) 4)
           (N.shiftr (sextet2 (Byte.to_N y) 0) 2)) = y.
Proof.
  apply uchar_to_N.
  apply (byte_pair_cases
    (fun a b => (N.lor (N.shiftl (N.land (sextet1 a b) 0x0f) 4)
                   (N.shiftr (sextet2 b 0) 2) mod 256 =? b)%N)
    ltac:(vm_compute; reflexivity) x y).
Qed.

Lemma third_byte (y z : byte) :
  uchar (N.lor (N.shiftl (N.land (sextet2 (Byte.to_N y) (Byte.to_N z)) 0x03) 6)
           (sextet3 (Byte.to_N z))) = z.
Proof.
  apply uchar_to_N.
  apply (byte_pair_cases
    (fun b c => (N.lor (N.shiftl (N.land (sextet2 b c) 0x03) 6) (sextet3 c) mod 256 =? c)%N)
    ltac:(vm_compute; reflexivity) y z).
Qed.

(** One step of the decoder on a letter of the alphabet. *)
Lemma a2b_loop_letter (s : N) (rest : list N) (quad_pos : nat) (leftchar : N)
    (pads : nat) (bin_data : list byte) :
  (s < 64)%N ->
  a2b_loop (table_b2a s :: rest) quad_pos leftchar pads bin_data =
  match quad_pos with
  | 0%nat => a2b_loop rest 1 s 0 bin_data
  | 1%nat =>
    a2b_loop rest 2 (N.land s 0x0f) 0
      (bin_data ++ [uchar (N.lor (N.shiftl leftchar 2) (N.shiftr s 4))])
  | 2%nat =>
    a2b_loop rest 3 (N.land s 0x03) 0
      (bin_data ++ [uchar (N.lor (N.shiftl leftchar 4) (N.shiftr s 2))])
  | _ => a2b_loop rest 0 0 0 (bin_data ++ [uchar (N.lor (N.shiftl leftchar 6) s)])
  end.
Proof.
  intros Hs. destruct (alphabet s Hs) as (Hpad & Htab & _).
  cbn [a2b_loop]. now rewrite Hpad, Htab.
Qed.

Lemma list_ind3 {A} (P : list A -> Prop) :
  P [] -> (forall x, P [x]) -> (forall x y, P [x; y]) ->
  (forall x y z l, P l -> P (x :: y :: z :: l)) ->
  forall l, P l.
Proof.
  intros H0 H1 H2 H3.
  fix IH 1. intros [|x [|y [|z l]]]; [apply H0|apply H1|apply H2|apply H3, IH].
Qed.

Lemma a2b_loop_b64encode (b : list byte) :
  forall bin_data, a2b_loop (b64encode b) 0 0 0 bin_data = Ret (bin_data ++ b).
Proof.
  induction b as [|x|x y|x y z l IH] using list_ind3; intros acc.
  - simpl. now rewrite app_nil_r.
  - destruct (sextets_small x x) as (H0 & _ & _ & _ & H1 & _).
    cbn [b64encode]. rewrite (a2b_loop_letter _ _ _ _ _ _ H0).
    rewrite (a2b_loop_letter _ _ _ _ _ _ H1).
    rewrite first_byte_alone. reflexivity.
  - destruct (sextets_small x y) as (H0 & H1 & _).
    destruct (sextets_small y y) as (_ & _ & _ & _ & _ & H2).
    cbn [b64encode]. rewrite (a2b_loop_letter _ _ _ _ _ _ H0).
    rewrite (a2b_loop_letter _ _ _ _ _ _ H1).
    rewrite (a2b_loop_letter _ _ _ _ _ _ H2).
    rewrite first_byte, second_byte_alone. cbn. now rewrite <- app_assoc.
  - destruct (sextets_small x y) as (H0 & H1 & _).
    destruct (sextets_small y z) as (_ & _ & H2 & _).
    destruct (sextets_small z z) as (_ & _ & _ & H3 & _).
    cbn [b64encode]. rewrite (a2b_loop_letter _ _ _ _ _ _ H0).
    rewrite (a2b_loop_letter _ _ _ _ _ _ H1).
    rewrite (a2b_loop_letter _ _ _ _ _ _ H2).
    rewrite (a2b_loop_letter _ _ _ _ _ _ H3).
    rewrite first_byte, (second_byte x y z), third_byte, IH.
    now rewrite <- !app_assoc.
Qed.

(** Every character of an encoding is a letter of the alphabet or the pad. *)
Lemma b64encode_chars (b : list byte) :
  Forall (fun c => (c <? 128)%N = true /\ (c =? 58)%N = false /\ (c =? 44)%N = false)
    (b64encode b).
Proof.
  assert (L : forall s, (s < 64)%N ->
            (table_b2a s <? 128)%N = true /\ (table_b2a s =? 58)%N = false
            /\ (table_b2a s =? 44)%N = false).
  { intros s Hs. destruct (alphabet s Hs) as (_ & Ht & H128 & H58). repeat split; auto.
    apply N.eqb_neq. intros E. rewrite E in Ht. discriminate. }
  induction b as [|x|x y|x y z l IH] using list_ind3.
  - constructor.
  - destruct (sextets_small x x) as (H0 & _ & _ & _ & H1 & _).
    cbn [b64encode]. repeat constructor; auto; apply L; auto.
  - destruct (sextets_small x y) as (H0 & H1 & _).
    destruct (sextets_small y y) as (_ & _ & _ & _ & _ & H2).
    cbn [b64encode]. repeat constructor; auto; apply L; auto.
  - destruct (sextets_small x y) as (H0 & H1 & _).
    destruct (sextets_small y z) as (_ & _ & H2 & _).
    destruct (sextets_small z z) as (_ & _ & _ & H3 & _).
    cbn [b64encode]. repeat (constructor; [apply L; auto|]). exact IH.
Qed.

(** [base64.b64decode(base64.b64encode(b).decode()) == b] *)
Lemma b64decode_b64encode (b : list byte) : b64decode (PStr (b64encode b)) = Ret b.
Proof.
  unfold b64decode.
  assert (H : forallb (fun c => (c <? 128)%N) (b64encode b) = true).
  { apply forallb_forall. intros c Hc.
    pose proof (b64encode_chars b) as F. rewrite Forall_forall in F.
    now apply F. }
  rewrite H. unfold a2b_base64. now rewrite a2b_loop_b64encode.
Qed.

End Base64Facts.

(* ===================================================================== *)
(** * The synchronous generator: from the response to the bytes *)
(* ===================================================================== *)

Module WanFacts.
Import wan26_t2i Base64 Base64Facts Examples StrFacts.

(** The first occurrence of a character that the text before it lacks. *)
Lemma find_char (c : N) (pre post : str) :
  ~ In c pre -> find [c] (pre ++ c :: post) = Some (List.length pre).
Proof.
  intros Hc. induction pre as [|x pre IH]; simpl.
  - now rewrite N.eqb_refl.
  - destruct (N.eqb_spec c x) as [->|_]; [exfalso; apply Hc; now left|].
    simpl. rewrite IH; [reflexivity|]. intros H. apply Hc. now right.
Qed.

Lemma find_char_none (c : N) (s : str) : ~ In c s -> find [c] s = None.
Proof.
  intros Hc. induction s as [|x s IH]; simpl; [reflexivity|].
  destruct (N.eqb_spec c x) as [->|_]; [exfalso; apply Hc; now left|].
  simpl. rewrite IH; [reflexivity|]. intros H. apply Hc. now right.
Qed.

Lemma get_url (url b64 : pyval) : get (reference url b64) "url" = Ret url.
Proof. reflexivity. Qed.

Lemma get_b64 (url b64 : pyval) : get (reference url b64) "b64" = Ret b64.
Proof. reflexivity. Qed.

(** An encoding never looks like a data URI. *)
Lemma b64encode_not_data_uri (b : list byte) : startswith (b64encode b) "data:" = false.
Proof.
  destruct (startswith (b64encode b) "data:") eqn:H; [|reflexivity].
  apply prefix_of_true in H as [t Ht].
  pose proof (b64encode_chars b) as F. rewrite Ht in F.
  rewrite Forall_forall in F.
  destruct (F 58%N) as (_ & H58 & _); [|discriminate].
  change (lit "data:") with [100; 97; 116; 97; 58]%N. simpl. tauto.
Qed.

Lemma decode_inline_plain (b : list byte) : decode_inline (PStr (b64encode b)) = Ret b.
Proof.
  unfold decode_inline. rewrite b64encode_not_data_uri. simpl.
  apply b64decode_b64encode.
Qed.

Lemma decode_inline_data_uri (mime : str) (b : list byte) :
  ~ In 44%N mime ->
  decode_inline (PStr (lit "data:" ++ mime ++ lit ";base64," ++ b64encode b)) = Ret b.
Proof.
  intros Hm. unfold decode_inline, startswith. rewrite prefix_of_app.
  set (pre := lit "data:" ++ mime ++ lit ";base64").
  assert (Hs : lit "data:" ++ mime ++ lit ";base64," ++ b64encode b
               = pre ++ 44%N :: b64encode b).
  { unfold pre. rewrite <- !app_assoc. reflexivity. }
  assert (Hpre : ~ In 44%N pre).
  { unfold pre. rewrite !in_app_iff. intros [H|[H|H]]; auto.
    - revert H. vm_compute. intuition discriminate.
    - revert H. vm_compute. intuition discriminate. }
  rewrite Hs. unfold split_once.
  change (lit ",") with [44%N]. rewrite (find_char _ _ _ Hpre).
  cbn [index nth_error Py.bind List.length].
  replace (List.length pre + 1)%nat with (List.length (pre ++ [44%N]))
    by (rewrite length_app; reflexivity).
  replace (pre ++ 44%N :: b64encode b) with ((pre ++ [44%N]) ++ b64encode b)
    by (rewrite <- app_assoc; reflexivity).
  rewrite skipn_app, skipn_all, Nat.sub_diag. cbn [skipn app].
  apply b64decode_b64encode.
Qed.

Lemma decode_inline_no_comma (s : str) :
  startswith s "data:" = true -> ~ In 44%N s ->
  decode_inline (PStr s) = Raise (builtin IndexError).
Proof.
  intros Hd Hc. unfold decode_inline. rewrite Hd. unfold split_once.
  change (lit ",") with [44%N]. now rewrite (find_char_none _ _ Hc).
Qed.

Section Responses.

Variables (R : Runtime) (E : env) (self : Wan26T2IGenerator).
Variables (prompt : str) (aspect_ratio model size : option str) (negative_prompt : str).
Variables (prompt_extend watermark : option bool).
Variables (w : world) (resp : response) (data url b64 : pyval).

(** The run whose generation request is answered 200 with the document
    [data], from which the extractor reads [url] and [b64]. *)
Hypothesis configured : is_empty (api_key self) = false.
Hypothesis size_accepted :
  exists s, _normalize_size R size (opt_or aspect_ratio (default_aspect_ratio self)) = Ret s.
Hypothesis answered : forall req, reply E (List.length (sent w)) req = inr resp.
Hypothesis status_ok : status_code resp = 200%Z.
Hypothesis has_body : is_empty (content resp) = false.
Hypothesis parsed : json resp = Some data.
Hypothesis extracted : _extract_image_url_or_b64 data = Ret (reference url b64).

Lemma generate_image_resolve :
  exists post,
    generate_image R E self prompt aspect_ratio model size negative_prompt
      prompt_extend watermark w
    = resolve E resp (after_send E post w).
Proof.
  destruct size_accepted as [fs Hfs].
  unfold generate_image, validate_config, Http.bind, lift at 1. rewrite configured.
  unfold lift at 1. rewrite Hfs.
  unfold requests_post, send. rewrite answered, status_ok. cbn [Z.eqb Pos.eqb negb].
  eexists. reflexivity.
Qed.

Lemma resolve_by_url (w1 : world) :
  truthy url = true ->
  resolve E resp w1 =
  (match reply E (List.length (sent w1)) (get_request url [] 60) with
   | inr img =>
     if (status_code img =? 200)%Z then Ret (content img)
     else Raise (download_failed (status_code img))
   | inl e => Raise e
   end,
   after_send E (get_request url [] 60) w1).
Proof.
  intros Hu. unfold resolve, Http.bind, lift, response_json.
  rewrite has_body, parsed, extracted, get_url, get_b64, Hu.
  unfold requests_get, send.
  destruct (reply E _ _) as [e|img]; [reflexivity|].
  unfold raise, ret. now destruct (status_code img =? 200)%Z.
Qed.

Lemma resolve_inline (w1 : world) :
  truthy url = false -> truthy b64 = true ->
  resolve E resp w1 = (decode_inline b64, w1).
Proof.
  intros Hu Hb. unfold resolve, Http.bind, lift, response_json.
  rewrite has_body, parsed, extracted, get_url, get_b64, Hu, Hb.
  now destruct (decode_inline b64).
Qed.

Lemma b64encode_nonempty (b : list byte) : b <> [] -> is_empty (b64encode b) = false.
Proof. destruct b as [|x [|y [|z l]]]; [congruence| | |]; reflexivity. Qed.

(** C10. When the extractor yields a non-empty URL, [generate_image]
    resolves the image by one GET of that URL and nothing else: after the
    generation request the only request is that GET, and the outcome is the
    body of its answer (or the download error), whatever the inline payload
    is, so the payload is never decoded. The inline payload is decoded only
    when the URL is absent or empty, and then no GET is sent. *)
Theorem url_before_inline :
  (truthy url = true ->
   exists post,
     sent (snd (generate_image R E self prompt aspect_ratio model size negative_prompt
                  prompt_extend watermark w))
     = sent w ++ [post; get_request url [] 60]
     /\ fst (generate_image R E self prompt aspect_ratio model size negative_prompt
               prompt_extend watermark w)
        = match reply E (S (List.length (sent w))) (get_request url [] 60) with
          | inr img =>
            if (status_code img =? 200)%Z then Ret (content img)
            else Raise (download_failed (status_code img))
          | inl e => Raise e
          end)
  /\ (truthy url = false -> truthy b64 = true ->
      exists post,
        sent (snd (generate_image R E self prompt aspect_ratio model size negative_prompt
                     prompt_extend watermark w))
        = sent w ++ [post]
        /\ fst (generate_image R E self prompt aspect_ratio model size negative_prompt
                  prompt_extend watermark w)
           = decode_inline b64).
Proof.
  destruct generate_image_resolve as [post Hrun]. split.
  - intros Hu. exists post. rewrite Hrun, (resolve_by_url _ Hu).
    cbn [fst snd sent after_send].
    rewrite length_app, Nat.add_1_r, <- app_assoc. split; reflexivity.
  - intros Hu Hb. exists post. rewrite Hrun, (resolve_inline _ Hu Hb). split; reflexivity.
Qed.

(** C9. When the extracted inline payload is a string that starts with
    [data:] and holds no comma (and there is no URL), [generate_image]
    raises the [IndexError] of [split(",", 1)[1]]: the exception of the
    prefix-stripping step, not a decoding error and not one of the
    generator's own messages. *)
Theorem data_uri_without_comma (s : str) :
  b64 = PStr s -> truthy url = false ->
  startswith s "data:" = true -> ~ In 44%N s ->
  fst (generate_image R E self prompt aspect_ratio model size negative_prompt
         prompt_extend watermark w)
  = Raise (builtin IndexError).
Proof.
  intros Hb Hu Hd Hc. destruct generate_image_resolve as [post Hrun].
  assert (Ht : truthy b64 = true).
  { rewrite Hb. destruct s; [discriminate Hd|reflexivity]. }
  rewrite Hrun, (resolve_inline _ Hu Ht), Hb. cbn [fst].
  now apply decode_inline_no_comma.
Qed.

(** C3, amended. For every non-empty byte string [b], a response whose
    inline field is [base64(b)] and that has no URL resolves to exactly
    [b]; with a data-URI prefix [data:<type>;base64,] (the type holding no
    comma) in front of [base64(b)], the same holds for every [b], the
    empty one included. *)
Theorem inline_round_trip (b : list byte) (mime : str) :
  truthy url = false ->
  (b64 = PStr (b64encode b) /\ b <> [])
  \/ (b64 = PStr (lit "data:" ++ mime ++ lit ";base64," ++ b64encode b)
      /\ ~ In 44%N mime) ->
  fst (generate_image R E self prompt aspect_ratio model size negative_prompt
         prompt_extend watermark w)
  = Ret b.
Proof.
  intros Hu Hb. destruct generate_image_resolve as [post Hrun].
  rewrite Hrun. destruct Hb as [[Hb Hne]|[Hb Hm]].
  - rewrite (resolve_inline _ Hu); [|now rewrite Hb; cbn; rewrite b64encode_nonempty].
    rewrite Hb. apply decode_inline_plain.
  - rewrite (resolve_inline _ Hu); [|now rewrite Hb].
    rewrite Hb. now apply decode_inline_data_uri.
Qed.

End Responses.

(** The scenario of the specification: the response
    [{"output":{"results":[{"b64_json":"aGVsbG8="}]}}] yields [b"hello"]. *)
Lemma inline_round_trip_hello :
  fst (wan_run (constant (json_response 200 (inline_document (lit "aGVsbG8=")))))
  = Ret hello.
Proof.
  refine (inline_round_trip latin1_runtime
            (constant (json_response 200 (inline_document (lit "aGVsbG8=")))) wan
            (lit "a red fox") None None None [] None None start
            (json_response 200 (inline_document (lit "aGVsbG8=")))
            (inline_document (lit "aGVsbG8=")) PNone (PStr (lit "aGVsbG8="))
            _ _ _ _ _ _ _ hello [] _ _).
  - vm_compute; reflexivity.
  - eexists. vm_compute; reflexivity.
  - intros req. reflexivity.
  - reflexivity.
  - vm_compute; reflexivity.
  - reflexivity.
  - vm_compute; reflexivity.
  - reflexivity.
  - left. split; [vm_compute; reflexivity|discriminate].
Defined.

(** The claim as stated fails for the empty byte string: its encoding is
    the empty string, which the generator takes for a missing payload. *)
Lemma inline_round_trip_fails_on_empty :
  Base64.b64encode [] = []
  /\ fst (wan_run (constant (json_response 200 (inline_document (Base64.b64encode [])))))
     = Raise (no_image (inline_document [])).
Proof. split; vm_compute; reflexivity. Qed.

(** A response that carries both a URL and an inline payload: the image is
    the body of the GET, and the run sends the generation request and that
    GET. *)
Lemma url_before_inline_example :
  fst (wan_run (scripted [json_response 200 url_and_inline_document;
                          bytes_response 200 png]))
  = Ret png
  /\ exists post,
       sent (snd (wan_run (scripted [json_response 200 url_and_inline_document;
                                     bytes_response 200 png])))
       = [post; get_request (PStr (lit "http://x/img.png")) [] 60].
Proof.
  destruct (url_before_inline latin1_runtime
              (scripted [json_response 200 url_and_inline_document;
                         bytes_response 200 png])
              wan (lit "a red fox") None None None [] None None start
              (json_response 200 url_and_inline_document) url_and_inline_document
              (PStr (lit "http://x/img.png")) (PStr (lit "aGVsbG8=")))
    as [Hurl _];
    try (intros req; reflexivity); try (vm_compute; reflexivity).
  - eexists. vm_compute; reflexivity.
  - destruct (Hurl eq_refl) as (post & Hsent & Hres). split.
    + unfold wan_run. rewrite Hres. vm_compute; reflexivity.
    + exists post. unfold wan_run. rewrite Hsent. reflexivity.
Defined.

Lemma data_uri_without_comma_example :
  fst (wan_run (constant (json_response 200 (inline_document (lit "data:image/png;base64")))))
  = Raise (builtin IndexError).
Proof.
  refine (data_uri_without_comma latin1_runtime
            (constant (json_response 200 (inline_document (lit "data:image/png;base64")))) wan
            (lit "a red fox") None None None [] None None start
            (json_response 200 (inline_document (lit "data:image/png;base64")))
            (inline_document (lit "data:image/png;base64")) PNone
            (PStr (lit "data:image/png;base64"))
            _ _ _ _ _ _ _ (lit "data:image/png;base64") _ _ _ _).
  - vm_compute; reflexivity.
  - eexists. vm_compute; reflexivity.
  - intros req. reflexivity.
  - reflexivity.
  - vm_compute; reflexivity.
  - reflexivity.
  - vm_compute; reflexivity.
  - reflexivity.
  - reflexivity.
  - vm_compute; reflexivity.
  - vm_compute. intuition discriminate.
Defined.

End WanFacts.

(* ===================================================================== *)
(** * The asynchronous generator: submit, poll, fetch *)
(* ===================================================================== *)

Module ModelScopeFacts.
Import modelscope_z_image Examples Notions StrFacts.

Section Polling.

Variables (R : Runtime) (E : env) (self : ModelScopeZImageGenerator).
Variables (task_id : pyval) (task_url : str) (status_headers : list (string * str)).
Variable deadline : Q.


Section Answered.

Variables (w : world) (r : response) (json : pyval) (task_status : str).
Hypothesis in_time : Qle_bool (now w) deadline = true.
Hypothesis answered :
  reply E (List.length (sent w)) (get_request (PStr task_url) status_headers 60) = inr r.
Hypothesis status_ok : status_code r = 200%Z.
Hypothesis parsed : Http.json r = Some json.
Hypothesis status_read : read_status R (py_or json (PDict [])) = Ret task_status.


(** A poll answered with a negative poll interval configured: [time.sleep]
    raises. *)
Lemma poll_loop_negative_interval (fuel : nat) (last_status : pyval) :
  str_eqb task_status (lit "SUCCEED") = false ->
  str_eqb task_status (lit "FAILED") = false ->
  Qle_bool 0 (poll_interval_seconds self) = false ->
  poll_loop (S fuel) R E self task_id task_url status_headers deadline last_status w
  = (Raise (builtin ValueError), after_send E (get_request (PStr task_url) status_headers 60) w).
Proof.
  intros Hs Hf Hp. cbn [poll_loop].
  unfold Http.bind at 1, time_time. rewrite in_time. cbn [negb].
  unfold Http.bind at 1, requests_get, send. rewrite answered, status_ok.
  cbn [Z.eqb Pos.eqb negb].
  unfold Http.bind at 1, lift at 1, response_json. rewrite parsed.
  unfold Http.bind at 1, lift at 1. rewrite status_read, Hs, Hf.
  unfold Http.bind at 1, time_sleep. rewrite Hp. reflexivity.
Qed.

(** A poll answered [FAILED]. *)
Lemma poll_loop_failed (fuel : nat) (last_status : pyval) (fields : list (str * pyval)) :
  task_status = lit "FAILED" ->
  py_or json (PDict []) = PDict fields ->
  poll_loop (S fuel) R E self task_id task_url status_headers deadline last_status w
  = (Raise (generation_failed
              (py_or (dict_get fields "message")
                 (py_or (dict_get fields "error")
                    (py_or (dict_get fields "output") (PStr (lit "未知错误")))))),
     after_send E (get_request (PStr task_url) status_headers 60) w).
Proof.
  intros Hs Hd. cbn [poll_loop].
  unfold Http.bind at 1, time_time. rewrite in_time. cbn [negb].
  unfold Http.bind at 1, requests_get, send. rewrite answered, status_ok.
  cbn [Z.eqb Pos.eqb negb].
  unfold Http.bind at 1, lift at 1, response_json. rewrite parsed.
  unfold Http.bind at 1, lift at 1. rewrite status_read, Hs, Hd.
  reflexivity.
Qed.


End Answered.

End Polling.

Lemma py_or_dict (fields : list (str * pyval)) :
  py_or (PDict fields) (PDict []) = PDict fields.
Proof. now destruct fields. Qed.


Section Submit.

Variables (fuel : nat) (R : Runtime) (E : env) (self : ModelScopeZImageGenerator).
Variables (prompt model : option str) (size : pyval) (w : world).
Variables (created : response) (fields : list (str * pyval)) (task_id : pyval).

Hypothesis has_key : is_empty (api_key self) = false.
Hypothesis has_base : is_empty (base_url self) = false.
Hypothesis has_model :
  is_empty (strip (opt_or model (modelscope_z_image.model self))) = false.
Hypothesis answered : forall req, reply E (List.length (sent w)) req = inr created.
Hypothesis status_ok : status_code created = 200%Z.
Hypothesis parsed : json created = Some (PDict fields).
Hypothesis identified :
  py_or (dict_get fields "task_id") (dict_get fields "id") = task_id.
Hypothesis id_present : truthy task_id = true.

(** A creation request answered with a task id: [generate_image] enters
    the polling loop with the deadline [max_wait_seconds] from then. *)
Lemma generate_image_polls :
  exists post status_headers,
    generate_image fuel R E self prompt model size w
    = poll_loop fuel R E self task_id
        (base_url self ++ task_endpoint self ++ lit "/" ++ to_str R task_id)
        status_headers
        (now (after_send E post w) + max_wait_seconds self)%Q PNone
        (after_send E post w).
Proof.
  unfold generate_image, validate_config.
  unfold Http.bind at 1, lift at 1. rewrite has_key, has_base, has_model.
  unfold Http.bind at 1, requests_post, send. rewrite answered, status_ok.
  cbn [Z.eqb Pos.eqb negb].
  unfold Http.bind at 1, lift at 1, response_json. rewrite parsed, py_or_dict.
  unfold Http.bind at 1, lift at 1, get.
  unfold Http.bind at 1, lift at 1. rewrite identified, id_present. cbn [negb].
  unfold Http.bind at 1, time_time.
  eexists. eexists. reflexivity.
Qed.

End Submit.

(** A creation request answered with a status other than 200: the
    generator raises the request error, with the status, the URL and the
    first 800 characters of the body, and sends nothing more: no poll is
    attempted. *)
Theorem create_failure_stops_before_polling (fuel : nat) (R : Runtime) (E : env)
    (self : ModelScopeZImageGenerator) (prompt model : option str) (size : pyval)
    (w : world) (r : response) :
  is_empty (api_key self) = false ->
  is_empty (base_url self) = false ->
  is_empty (strip (opt_or model (modelscope_z_image.model self))) = false ->
  (forall req, reply E (List.length (sent w)) req = inr r) ->
  status_code r <> 200%Z ->
  exists post,
    req_method post = POST
    /\ generate_image fuel R E self prompt model size w
       = (Raise (create_failed (status_code r) (base_url self ++ endpoint_type self)
                   (slice_to 800 (text r))),
          after_send E post w).
Proof.
  intros Hkey Hbase Hmodel Hr Hs.
  unfold generate_image, validate_config.
  unfold Http.bind at 1, lift at 1. rewrite Hkey, Hbase, Hmodel.
  unfold Http.bind at 1, requests_post, send. rewrite Hr.
  apply Z.eqb_neq in Hs. rewrite Hs. cbn [negb].
  eexists. split; [|reflexivity]. reflexivity.
Qed.

(** The scenario of the specification: the creation request is answered 500. *)
Lemma create_failure_500 :
  exists post,
    req_method post = POST
    /\ modelscope_run modelscope (constant (bytes_response 500 []))
       = (Raise (create_failed 500
                   (lit "https://api-inference.modelscope.cn/v1/images/generations") []),
          after_send (constant (bytes_response 500 [])) post start).
Proof.
  destruct (create_failure_stops_before_polling 200 latin1_runtime
              (constant (bytes_response 500 [])) modelscope (Some (lit "a red fox")) None
              PNone start (bytes_response 500 []))
    as (post & Hpost & Hrun).
  - vm_compute; reflexivity.
  - vm_compute; reflexivity.
  - vm_compute; reflexivity.
  - intros req. reflexivity.
  - discriminate.
  - exists post. split; [exact Hpost|].
    unfold modelscope_run. rewrite Hrun. vm_compute; reflexivity.
Defined.



(** C7. Whenever a status poll is answered 200 with a task status that
    upper-cases to ["FAILED"], [generate_image] fails at once: the loop
    raises without sleeping or sending anything more. The message is
    ["ModelScope 图片生成失败: "] followed by the first of the fields
    [message], [error], [output] that holds a non-empty (truthy) value, and
    by ["未知错误"] when none does. *)
Theorem provider_failure (fuel : nat) (R : Runtime) (E : env)
    (self : ModelScopeZImageGenerator) (task_id : pyval) (task_url : str)
    (status_headers : list (string * str)) (deadline : Q) (last_status : pyval)
    (w : world) (r : response) (fields : list (str * pyval)) (s : str) :
  Qle_bool (now w) deadline = true ->
  reply E (List.length (sent w)) (get_request (PStr task_url) status_headers 60) = inr r ->
  status_code r = 200%Z ->
  json r = Some (PDict fields) ->
  py_or (dict_get fields "task_status") (py_or (dict_get fields "status") (PStr []))
  = PStr s ->
  upper R s = lit "FAILED" ->
  exists error_msg,
    poll_loop (S fuel) R E self task_id task_url status_headers deadline last_status w
    = (Raise (generation_failed error_msg),
       after_send E (get_request (PStr task_url) status_headers 60) w)
    /\ message R (generation_failed error_msg)
       = lit "ModelScope 图片生成失败: " ++ to_str R error_msg
    /\ (truthy (dict_get fields "message") = true ->
        error_msg = dict_get fields "message")
    /\ (truthy (dict_get fields "message") = false ->
        truthy (dict_get fields "error") = true ->
        error_msg = dict_get fields "error")
    /\ (truthy (dict_get fields "message") = false ->
        truthy (dict_get fields "error") = false ->
        truthy (dict_get fields "output") = true ->
        error_msg = dict_get fields "output")
    /\ (truthy (dict_get fields "message") = false ->
        truthy (dict_get fields "error") = false ->
        truthy (dict_get fields "output") = false ->
        error_msg = PStr (lit "未知错误")).
Proof.
  intros Ht Hr Hs Hj Hst Hup.
  eexists. split; [|split].
  - apply poll_loop_failed with (r := r) (json := PDict fields) (task_status := lit "FAILED");
      auto using py_or_dict.
    rewrite py_or_dict. unfold read_status, get, Py.bind. now rewrite Hst, Hup.
  - unfold message, generation_failed, render. cbn [flat_map render_part].
    now rewrite app_nil_r.
  - unfold py_or.
    destruct (truthy (dict_get fields "message"));
      destruct (truthy (dict_get fields "error"));
      destruct (truthy (dict_get fields "output"));
      repeat split; intros; congruence.
Qed.

(** The scenario of the specification: the first poll is answered
    [{"task_status":"FAILED","message":"nsfw content"}]. *)
Lemma provider_failure_nsfw :
  exists e,
    fst (modelscope_run modelscope
           (scripted [json_response 200 created; json_response 200 failed]))
    = Raise e
    /\ message latin1_runtime e = lit "ModelScope 图片生成失败: nsfw content".
Proof.
  destruct (generate_image_polls 200 latin1_runtime
              (scripted [json_response 200 created; json_response 200 failed])
              modelscope (Some (lit "a red fox")) None PNone start
              (json_response 200 created) [(lit "task_id", PStr (lit "abc"))]
              (PStr (lit "abc")))
    as (post & hdrs & Hrun);
    try (intros req; reflexivity); try (vm_compute; reflexivity).
  destruct (provider_failure 199 latin1_runtime
              (scripted [json_response 200 created; json_response 200 failed])
              modelscope (PStr (lit "abc"))
              (modelscope_z_image.base_url modelscope
               ++ modelscope_z_image.task_endpoint modelscope ++ lit "/"
               ++ to_str latin1_runtime (PStr (lit "abc")))
              hdrs
              (now (after_send
                      (scripted [json_response 200 created; json_response 200 failed])
                      post start)
               + modelscope_z_image.max_wait_seconds modelscope)%Q
              PNone
              (after_send (scripted [json_response 200 created; json_response 200 failed])
                 post start)
              (json_response 200 failed)
              [(lit "task_status", PStr (lit "FAILED"));
               (lit "message", PStr (lit "nsfw content"))]
              (lit "FAILED"))
    as (msg & Hloop & Hmsg & Hfirst & _);
    try (vm_compute; reflexivity).
  exists (generation_failed msg). split.
  - unfold modelscope_run. rewrite Hrun, Hloop. reflexivity.
  - rewrite Hmsg, (Hfirst eq_refl). vm_compute; reflexivity.
Defined.

Section Waiting.

Variables (R : Runtime) (E : env) (self : ModelScopeZImageGenerator).
Variables (task_id : pyval) (task_url : str) (status_headers : list (string * str)).
Variables (t0 : Q) (n0 : nat).
Variable observed : nat -> str.

Hypothesis interval_positive : (0 < poll_interval_seconds self)%Q.
Hypothesis latency_nonnegative : forall k, (0 <= latency E k)%Q.
Hypothesis oversleep_nonnegative : forall k, (0 <= oversleep E k)%Q.
Hypothesis never_terminal :
  forall k, (n0 <= k)%nat ->
  exists r json,
    reply E k (get_request (PStr task_url) status_headers 60) = inr r
    /\ status_code r = 200%Z
    /\ Http.json r = Some json
    /\ read_status R (py_or json (PDict [])) = Ret (observed k)
    /\ observed k <> lit "SUCCEED"
    /\ observed k <> lit "FAILED".




End Waiting.





End ModelScopeFacts.

(* ===================================================================== *)
(** * The response extractor and the size normalizer *)
(* ===================================================================== *)

Module ExtractorFacts.
Import wan26_t2i Examples.

(** C4, where the code departs from it. A document whose [output] holds a
    non-empty value that is not a dict (a string, a number, a list) makes
    the extractor raise [AttributeError]: [output.get] is called on it
    unguarded, although the document matches neither known shape. *)
Theorem extractor_raises_on_non_dict_output (d : list (str * pyval)) :
  truthy (dict_get d "output") = true ->
  (forall fields, dict_get d "output" <> PDict fields) ->
  _extract_image_url_or_b64 (PDict d) = Raise (builtin AttributeError).
Proof.
  intros Ht Hd. unfold _extract_image_url_or_b64, output_of, py_or. rewrite Ht.
  destruct (dict_get d "output"); try reflexivity.
  now destruct (Hd d0).
Qed.

Lemma extractor_raises_on_string_output :
  _extract_image_url_or_b64 (PDict [(lit "output", PStr (lit "x"))])
  = Raise (builtin AttributeError).
Proof.
  apply (extractor_raises_on_non_dict_output [(lit "output", PStr (lit "x"))]).
  - vm_compute; reflexivity.
  - intros fields. vm_compute. discriminate.
Defined.

Lemma scan_content_reference (content : list pyval) (r : pyval) :
  scan_content content = Some r -> exists url b64, r = reference url b64.
Proof.
  induction content as [|v rest IH]; cbn [scan_content]; [discriminate|].
  destruct v; try exact IH.
  destruct (truthy (url_field d) || truthy (b64_field d)); [|exact IH].
  intros [= <-]. eauto.
Qed.

Lemma scan_choices_reference (choices : list pyval) (r : pyval) :
  scan_choices choices = Some r -> exists url b64, r = reference url b64.
Proof.
  induction choices as [|v rest IH]; cbn [scan_choices]; [discriminate|].
  destruct v; try exact IH.
  destruct (py_or (dict_get d "message") (PDict [])); try exact IH.
  destruct (dict_get d0 "content"); try exact IH.
  - destruct (scan_content l) eqn:Hc; [|exact IH].
    intros [= <-]. now apply scan_content_reference in Hc.
  - destruct (truthy (url_field d1) || truthy (b64_field d1)); [|exact IH].
    intros [= <-]. eauto.
Qed.

(** On every document whose [output] is missing, null or empty, or a dict,
    the extractor returns a reference (a dict with the keys [url] and
    [b64]) and does not raise, whatever else the document holds. *)
Theorem extractor_total (data : pyval) :
  (forall d, data = PDict d ->
     truthy (dict_get d "output") = false \/ exists o, dict_get d "output" = PDict o) ->
  exists url b64, _extract_image_url_or_b64 data = Ret (reference url b64).
Proof.
  intros Hshape.
  assert (Ho : exists o, output_of data = PDict o).
  { destruct data; try (exists []; reflexivity).
    destruct (Hshape d eq_refl) as [Hf|[o Ho]]; unfold output_of, py_or.
    - rewrite Hf. now exists [].
    - rewrite Ho. destruct (truthy (PDict o)); eauto. }
  destruct Ho as [o Ho]. unfold _extract_image_url_or_b64. rewrite Ho.
  cbn [get Py.bind]. destruct (first_result (dict_get o "results")); [eauto|].
  destruct (dict_get o "choices"); eauto.
  destruct l as [|c cs]; [eauto|].
  destruct (scan_choices (c :: cs)) eqn:Hs; [|eauto].
  apply scan_choices_reference in Hs as (url & b64 & ->). eauto.
Qed.

Lemma extractor_total_on_results :
  exists url b64,
    _extract_image_url_or_b64 (inline_document (lit "aGVsbG8=")) = Ret (reference url b64).
Proof.
  apply (extractor_total (inline_document (lit "aGVsbG8="))).
  intros d [= <-]. right. eexists. vm_compute; reflexivity.
Defined.

(** A document that matches neither shape (its [output], a dict or taken
    for the empty dict, has no usable first result and no non-empty list of
    choices) yields the empty reference, both fields [None]. *)
Theorem extractor_empty_on_neither_shape (data : pyval) (o : list (str * pyval)) :
  output_of data = PDict o ->
  first_result (dict_get o "results") = None ->
  (forall c cs, dict_get o "choices" <> PList (c :: cs)) ->
  _extract_image_url_or_b64 data = Ret (reference PNone PNone).
Proof.
  intros Ho Hr Hc. unfold _extract_image_url_or_b64. rewrite Ho.
  cbn [get Py.bind]. rewrite Hr.
  destruct (dict_get o "choices") eqn:Hch; try reflexivity.
  destruct l as [|c cs]; [reflexivity|]. now destruct (Hc c cs).
Qed.

Lemma extractor_empty_on_a_string :
  _extract_image_url_or_b64 (PStr (lit "not a document")) = Ret (reference PNone PNone).
Proof.
  apply (extractor_empty_on_neither_shape (PStr (lit "not a document")) []).
  - reflexivity.
  - reflexivity.
  - intros c cs. vm_compute. discriminate.
Defined.

(** C5, where the code departs from it. The three spellings of the
    specification normalize to ["1280*720"], but a size whose components
    are digits without a decimal value, such as the superscript two, passes
    [isdigit()] and makes [int()] raise [ValueError]: the function can fail. *)
Theorem normalize_size_raises_on_superscript (R : Runtime) (aspect_ratio : str) :
  _normalize_size R (Some (lit "1280x720")) aspect_ratio = Ret (lit "1280*720")
  /\ _normalize_size R (Some (lit "1280X720")) aspect_ratio = Ret (lit "1280*720")
  /\ _normalize_size R (Some (lit "1280×720")) aspect_ratio = Ret (lit "1280*720")
  /\ _normalize_size R (Some (lit "²x3")) aspect_ratio = Raise (builtin ValueError).
Proof. repeat split; vm_compute; reflexivity. Qed.

End ExtractorFacts.

(* ===================================================================== *)
(** * The size normalizer on ASCII sizes *)
(* ===================================================================== *)

Module SizeFacts.
Import wan26_t2i StrFacts Examples.

Lemma ascii_digit_cases (c : N) :
  ascii_digit c = true ->
  (c = 48 \/ c = 49 \/ c = 50 \/ c = 51 \/ c = 52 \/ c = 53 \/ c = 54 \/ c = 55
   \/ c = 56 \/ c = 57)%N.
Proof.
  unfold ascii_digit. intros H. apply andb_prop in H as [H1 H2].
  apply N.leb_le in H1, H2. lia.
Qed.

(** A digit is no blank, no letter, no separator, and has its value. *)
Lemma ascii_digit_plain (R : Runtime) (c : N) :
  ascii_digit c = true ->
  isspace c = false /\ latin1 c = true /\ lower_latin1 c = c
  /\ (c =? 0x78)%N = false /\ (c =? 0xD7)%N = false /\ (c =? 0x2A)%N = false
  /\ isdigit_char R c = true /\ decimal_char R c = Some (c - 0x30)%N.
Proof.
  intros H. apply ascii_digit_cases in H.
  repeat (destruct H as [->|H]; [repeat split; reflexivity|]).
  subst c. repeat split; reflexivity.
Qed.

Lemma digits_each (s : str) (c : N) :
  forallb ascii_digit s = true -> In c s -> ascii_digit c = true.
Proof. intros D Hc. rewrite forallb_forall in D. now apply D. Qed.

Lemma digits_latin1 (R : Runtime) (s : str) :
  forallb ascii_digit s = true -> forallb latin1 s = true.
Proof.
  intros D. apply forallb_forall. intros c Hc.
  now destruct (ascii_digit_plain R c (digits_each s c D Hc)) as (_ & H & _).
Qed.

Lemma digits_map_id (s : str) (f : N -> N) :
  forallb ascii_digit s = true ->
  (forall c, ascii_digit c = true -> f c = c) -> map f s = s.
Proof.
  intros D Hf. rewrite <- (map_id s) at 2. apply map_ext_in.
  intros c Hc. apply Hf. exact (digits_each s c D Hc).
Qed.

Lemma digits_isdigit (R : Runtime) (s : str) :
  forallb ascii_digit s = true -> s <> [] -> isdigit R s = true.
Proof.
  intros D Hne. unfold isdigit.
  assert (H : forallb (isdigit_char R) s = true).
  { apply forallb_forall. intros x Hx.
    now destruct (ascii_digit_plain R x (digits_each s x D Hx))
      as (_ & _ & _ & _ & _ & _ & H & _). }
  rewrite H. now destruct s.
Qed.

Lemma digits_decimal_values (R : Runtime) (s : str) :
  forallb ascii_digit s = true ->
  decimal_values R s = Some (map (fun c => (c - 0x30)%N) s).
Proof.
  induction s as [|c t IH]; intros D; [reflexivity|].
  cbn [forallb] in D. apply andb_prop in D as [Hc Ht].
  cbn [decimal_values map].
  destruct (ascii_digit_plain R c Hc) as (_ & _ & _ & _ & _ & _ & _ & ->).
  now rewrite (IH Ht).
Qed.

Lemma digits_int (R : Runtime) (s : str) :
  forallb ascii_digit s = true -> (List.length s <= 640)%nat ->
  int R s = Ret (ascii_value s).
Proof.
  intros D Hlen. unfold int.
  destruct (Nat.ltb_spec 640 (List.length s)) as [Hgt|_]; [lia|].
  cbn [andb]. rewrite (digits_decimal_values R s D). f_equal. unfold ascii_value.
  generalize 0%Z. clear. induction s as [|c t IH]; intros a; [reflexivity|].
  cbn [map fold_left]. apply IH.
Qed.

Lemma digits_split_plain (R : Runtime) (s : str) :
  forallb ascii_digit s = true -> split_char 0x2A s = [s].
Proof.
  induction s as [|c t IH]; intros D; [reflexivity|].
  cbn [forallb] in D. apply andb_prop in D as [Hc Ht].
  cbn [split_char]. rewrite (IH Ht).
  now destruct (ascii_digit_plain R c Hc) as (_ & _ & _ & _ & _ & -> & _).
Qed.

Lemma split_at_star (R : Runtime) (w h : str) :
  forallb ascii_digit w = true -> forallb ascii_digit h = true ->
  split_char 0x2A (w ++ 0x2A%N :: h) = [w; h].
Proof.
  intros Hw Hh. induction w as [|c t IH].
  - cbn [app split_char]. now rewrite (digits_split_plain R h Hh).
  - cbn [forallb] in Hw. apply andb_prop in Hw as [Hc Ht].
    cbn [app split_char]. rewrite (IH Ht).
    now destruct (ascii_digit_plain R c Hc) as (_ & _ & _ & _ & _ & -> & _).
Qed.

Lemma strip_sized (R : Runtime) (w h : str) (d : N) :
  w <> [] -> h <> [] ->
  forallb ascii_digit w = true -> forallb ascii_digit h = true ->
  strip (w ++ d :: h) = w ++ d :: h.
Proof.
  intros Hw Hh Dw Dh. unfold strip, lstrip, lstrip_by.
  destruct w as [|c w']; [congruence|].
  cbn [forallb] in Dw. apply andb_prop in Dw as [Dc _].
  destruct (ascii_digit_plain R c Dc) as (Hsp & _).
  cbn [app dropwhile]. rewrite Hsp.
  destruct (exists_last Hh) as (h' & z & ->).
  rewrite forallb_app in Dh. apply andb_prop in Dh as [_ Dz].
  cbn [forallb] in Dz. rewrite andb_true_r in Dz.
  destruct (ascii_digit_plain R z Dz) as (Hz & _).
  unfold rstrip, rstrip_by.
  replace (c :: w' ++ d :: h' ++ [z]) with ((c :: w' ++ d :: h') ++ [z])
    by (cbn [app]; rewrite <- app_assoc; reflexivity).
  rewrite rev_app_distr. cbn [rev app dropwhile]. rewrite Hz.
  cbn [rev]. rewrite rev_app_distr, rev_involutive. reflexivity.
Qed.

Lemma normalize_size_unfold (R : Runtime) (size aspect_ratio : str) :
  size <> [] ->
  _normalize_size R (Some size) aspect_ratio =
  match filter (fun p => negb (is_empty p))
          (split_char 0x2A
             (replace_char 0xD7 0x2A (replace_char 0x78 0x2A (lower R (strip size)))))
  with
  | [w; h] =>
    if isdigit R w && isdigit R h then
      w' <~ int R w ;; h' <~ int R h ;; Ret (int_str w' ++ lit "*" ++ int_str h')
    else Ret (_aspect_ratio_to_size aspect_ratio)
  | _ => Ret (_aspect_ratio_to_size aspect_ratio)
  end.
Proof. intros H. destruct size; [congruence|reflexivity]. Qed.

(** On sizes made of two runs of ASCII digits (of at most 640 digits each)
    joined by [x], [X], [×] or [*], [_normalize_size] returns the canonical
    ["{w}*{h}"], the same for every separator. *)
Theorem normalize_size_canonical (R : Runtime) (aspect_ratio w h : str) (d : N) :
  w <> [] -> h <> [] ->
  forallb ascii_digit w = true -> forallb ascii_digit h = true ->
  (List.length w <= 640)%nat -> (List.length h <= 640)%nat ->
  In d [0x78; 0x58; 0xD7; 0x2A]%N ->
  _normalize_size R (Some (w ++ d :: h)) aspect_ratio
  = Ret (int_str (ascii_value w) ++ lit "*" ++ int_str (ascii_value h)).
Proof.
  intros Hw Hh Dw Dh Lw Lh Hd.
  rewrite normalize_size_unfold by (destruct w; [congruence|discriminate]).
  rewrite (strip_sized R w h d Hw Hh Dw Dh).
  assert (Hd256 : latin1 d = true).
  { cbn [In] in Hd. destruct Hd as [<-|[<-|[<-|[<-|[]]]]]; reflexivity. }
  unfold lower.
  assert (Hl : forallb latin1 (w ++ d :: h) = true).
  { rewrite forallb_app. cbn [forallb].
    now rewrite (digits_latin1 R w Dw), (digits_latin1 R h Dh), Hd256. }
  rewrite Hl. unfold replace_char. rewrite !map_app. cbn [map]. rewrite !map_map.
  assert (Hid : forall s, forallb ascii_digit s = true ->
            map (fun x => if ((if (lower_latin1 x =? 0x78)%N then 0x2A%N
                                else lower_latin1 x) =? 0xD7)%N
                          then 0x2A%N
                          else if (lower_latin1 x =? 0x78)%N then 0x2A%N
                               else lower_latin1 x) s = s).
  { intros s Ds. apply digits_map_id; [exact Ds|]. intros c Hc.
    destruct (ascii_digit_plain R c Hc) as (_ & _ & -> & -> & -> & _). reflexivity. }
  rewrite (Hid w Dw), (Hid h Dh).
  assert (Hsep : (if ((if (lower_latin1 d =? 0x78)%N then 0x2A%N else lower_latin1 d)
                      =? 0xD7)%N
                  then 0x2A%N
                  else if (lower_latin1 d =? 0x78)%N then 0x2A%N else lower_latin1 d)
                 = 0x2A%N).
  { cbn [In] in Hd. destruct Hd as [<-|[<-|[<-|[<-|[]]]]]; reflexivity. }
  rewrite Hsep, (split_at_star R w h Dw Dh).
  cbn [filter]. destruct w as [|cw w']; [congruence|]. destruct h as [|ch h']; [congruence|].
  cbn [is_empty negb].
  rewrite (digits_isdigit R _ Dw), (digits_isdigit R _ Dh) by discriminate.
  cbn [andb]. rewrite (digits_int R _ Dw Lw), (digits_int R _ Dh Lh). reflexivity.
Qed.

Lemma normalize_size_canonical_example :
  _normalize_size latin1_runtime (Some (lit "01280X720")) (lit "1:1")
  = Ret (lit "1280*720").
Proof.
  apply (normalize_size_canonical latin1_runtime (lit "1:1") (lit "01280") (lit "720") 0x58).
  - vm_compute. discriminate.
  - vm_compute. discriminate.
  - vm_compute; reflexivity.
  - vm_compute; reflexivity.
  - apply Nat.leb_le. vm_compute; reflexivity.
  - apply Nat.leb_le. vm_compute; reflexivity.
  - right. left. reflexivity.
Defined.

(** Without a size ([None] or the empty string) the result is the size the
    table gives for the aspect ratio: for each of the eight ratios [a:b] it
    lists, a size [w*h] of exactly that ratio, and ["1280*1280"] for any
    other aspect ratio. Whatever the aspect ratio, that size is canonical:
    given back as a size, it is returned as it is. *)
Theorem fallback_sizes (R : Runtime) (aspect_ratio other : str) :
  Forall
    (fun '(a, b, w, h) =>
       _normalize_size R None (int_str a ++ lit ":" ++ int_str b)
       = Ret (int_str w ++ lit "*" ++ int_str h)
       /\ _normalize_size R (Some []) (int_str a ++ lit ":" ++ int_str b)
          = Ret (int_str w ++ lit "*" ++ int_str h)
       /\ (w * b = h * a)%Z)
    [(1, 1, 1280, 1280); (2, 3, 800, 1200); (3, 2, 1200, 800); (3, 4, 960, 1280);
     (4, 3, 1280, 960); (9, 16, 720, 1280); (16, 9, 1280, 720); (21, 9, 1344, 576)]%Z
  /\ (~ In aspect_ratio
        (map lit ["1:1"; "2:3"; "3:2"; "3:4"; "4:3"; "9:16"; "16:9"; "21:9"]%string) ->
      _normalize_size R None aspect_ratio = Ret (lit "1280*1280")
      /\ _normalize_size R (Some []) aspect_ratio = Ret (lit "1280*1280"))
  /\ (exists s,
        _normalize_size R None aspect_ratio = Ret s
        /\ _normalize_size R (Some []) aspect_ratio = Ret s
        /\ _normalize_size R (Some s) other = Ret s).
Proof.
  split; [|split].
  - repeat (apply Forall_cons; [repeat split; vm_compute; reflexivity|]). apply Forall_nil.
  - intros Hnot.
    assert (H : _aspect_ratio_to_size aspect_ratio = lit "1280*1280").
    { unfold _aspect_ratio_to_size. cbn [List.find fst snd].
      repeat match goal with
      | |- context [str_eqb aspect_ratio ?k] =>
        rewrite (str_eqb_neq aspect_ratio k)
          by (intros E; apply Hnot; rewrite E; cbn [map In]; tauto)
      end.
      reflexivity. }
    cbn [_normalize_size]. now rewrite H.
  - exists (_aspect_ratio_to_size aspect_ratio).
    split; [reflexivity|]. split; [reflexivity|].
    unfold _aspect_ratio_to_size. cbn [List.find fst snd].
    repeat match goal with
    | |- context [if str_eqb aspect_ratio ?k then _ else _] =>
      destruct (str_eqb aspect_ratio k); [vm_compute; reflexivity|]
    end.
    vm_compute; reflexivity.
Qed.

End SizeFacts.

(* ===================================================================== *)
(** * The base URLs the constructors keep *)
(* ===================================================================== *)

Module UrlFacts.
Import Notions StrFacts.

Lemma version_match_prefix (R : Runtime) (e v : str) :
  modelscope_z_image.version_prefix R e v ->
  exists group1, modelscope_z_image.version_match R e = Some group1
                 /\ v = lit "/" ++ group1.
Proof.
  intros (digits & rest & Hne & Hd & Hr & -> & ->).
  exists (0x76%N :: digits). split; [|reflexivity].
  change (lit "/v") with [0x2F%N; 0x76%N]. cbn [app modelscope_z_image.version_match].
  rewrite !N.eqb_refl. cbn [andb].
  rewrite (takewhile_app _ _ _ Hd Hr). now destruct digits.
Qed.

Lemma version_match_some (R : Runtime) (e group1 : str) :
  modelscope_z_image.version_match R e = Some group1 ->
  modelscope_z_image.version_prefix R e (lit "/" ++ group1).
Proof.
  unfold modelscope_z_image.version_match.
  destruct e as [|c0 [|c1 rest]]; try discriminate.
  destruct (N.eqb_spec c0 0x2F) as [->|_]; [|discriminate].
  destruct (N.eqb_spec c1 0x76) as [->|_]; [|discriminate].
  cbn [andb].
  destruct (takewhile (isdecimal_char R) rest) as [|d ds] eqn:Ht; [discriminate|].
  intros [= <-].
  exists (d :: ds), (dropwhile (isdecimal_char R) rest).
  split; [discriminate|]. split; [rewrite <- Ht; apply takewhile_all|].
  split; [|split].
  - destruct (dropwhile (isdecimal_char R) rest) as [|c t] eqn:Hdrop; [exact I|].
    assert (H : dropwhile (isdecimal_char R) (c :: t) = c :: t).
    { rewrite <- Hdrop. apply dropwhile_idem. }
    apply dropwhile_fix in H as [H|(x & t' & [= <- <-] & Hx)]; [discriminate|exact Hx].
  - reflexivity.
  - rewrite <- Ht. change (lit "/") with [0x2F%N]. cbn [app].
    do 2 f_equal. symmetry. apply takewhile_dropwhile.
Qed.

Lemma version_match_none_v1 (R : Runtime) (e : str) :
  modelscope_z_image.version_match R e = None -> startswith e "/v1" = false.
Proof.
  intros H. destruct (startswith e "/v1") eqn:Hs; [|reflexivity].
  apply prefix_of_true in Hs as [t ->]. revert H. vm_compute. discriminate.
Qed.

(** A whole version segment is in particular what the pattern matches. *)
Lemma version_segment_prefix (R : Runtime) (e v : str) :
  version_segment R e v -> modelscope_z_image.version_prefix R e v.
Proof.
  intros (digits & rest & Hne & Hd & Hr & Hv & He).
  exists digits, rest. repeat split; auto.
  destruct Hr as [->|[t ->]]; [exact I|reflexivity].
Qed.

(** [find] returns the place of the first occurrence. *)
Lemma find_some (sub s : str) :
  forall i, find sub s = Some i ->
  exists post,
    s = firstn i s ++ sub ++ post
    /\ List.length (firstn i s) = i
    /\ forall pre' post', s = pre' ++ sub ++ post' -> (i <= List.length pre')%nat.
Proof.
  induction s as [|x t IH]; intros i; cbn [find];
    destruct (prefix_of sub _) eqn:Hp.
  - intros [= <-]. apply prefix_of_true in Hp as [post Hp].
    exists post. repeat split; [exact Hp|]. intros; lia.
  - discriminate.
  - intros [= <-]. apply prefix_of_true in Hp as [post Hp].
    exists post. repeat split; [exact Hp|]. intros; lia.
  - destruct (find sub t) as [j|] eqn:Hj; [|discriminate].
    intros [= <-]. destruct (IH j eq_refl) as (post & Ht & Hl & Hmin).
    exists post. cbn [firstn app List.length]. split; [now rewrite <- Ht|].
    split; [now rewrite Hl|].
    intros [|y pre'] post' Hs.
    + cbn [app] in Hs. rewrite Hs, prefix_of_app in Hp. discriminate.
    + cbn [app] in Hs. injection Hs as _ Hs. apply Hmin in Hs. cbn [List.length]. lia.
Qed.

Lemma find_none (sub s : str) :
  find sub s = None -> forall pre post, s <> pre ++ sub ++ post.
Proof.
  induction s as [|x t IH]; cbn [find]; destruct (prefix_of sub _) eqn:Hp;
    try discriminate; intros Hf pre post Hs.
  - destruct pre; [|discriminate]. cbn [app] in Hs.
    rewrite Hs, prefix_of_app in Hp. discriminate.
  - destruct (find sub t) eqn:Hj; [discriminate|].
    destruct pre as [|y pre].
    + cbn [app] in Hs. rewrite Hs, prefix_of_app in Hp. discriminate.
    + cbn [app] in Hs. injection Hs as _ Hs. exact (IH eq_refl pre post Hs).
Qed.

Lemma with_api_version_completes (head : str) :
  completes_version head (wan26_t2i.with_api_version head).
Proof.
  unfold completes_version, wan26_t2i.with_api_version.
  destruct (endswith head "/api"); [left; split; reflexivity|].
  destruct (contains "/api/" head); cbn [negb andb].
  { right. right. split; [reflexivity|]. split; [left|]; reflexivity. }
  destruct (contains "dashscope" head).
  - right. left. repeat split.
  - right. right. split; [reflexivity|]. split; [right|]; reflexivity.
Qed.

(** C8, amended. For every configured base URL and endpoint path:
    - the ModelScope constructor removes a trailing [/v1], [/v2], ... and
      the slashes before it from the base URL exactly when the endpoint
      path starts with that same [/v] and digits, the digits ending there;
      otherwise it keeps the trimmed base URL. An endpoint path that starts
      with the whole version segment is one such case (but not the only
      one, see the counterexample);
    - the Wan constructor takes the generation path out of a base URL that
      holds it, keeping what stands before its first occurrence; to what is
      left it appends [/v1] after a final [/api], appends [/api/v1] only
      when it mentions [dashscope] and holds no [/api/], and appends nothing
      in every other case;
    - for the two providers' own URL conventions the request URL comes out
      the same, with no path segment twice and none missing. *)
Theorem base_url_normalization (R : Runtime) :
  (forall b e v pre,
     modelscope_z_image.version_prefix R (snd (modelscope_z_image.init_urls R b e)) v ->
     rstrip_chars "/" (strip (str_or b "https://api-inference.modelscope.cn")) = pre ++ v ->
     fst (modelscope_z_image.init_urls R b e) = rstrip_chars "/" pre)
  /\ (forall b e,
     (forall v pre,
        modelscope_z_image.version_prefix R (snd (modelscope_z_image.init_urls R b e)) v ->
        rstrip_chars "/" (strip (str_or b "https://api-inference.modelscope.cn"))
        <> pre ++ v) ->
     fst (modelscope_z_image.init_urls R b e)
     = rstrip_chars "/" (strip (str_or b "https://api-inference.modelscope.cn")))
  /\ (forall b e v pre,
     version_segment R (snd (modelscope_z_image.init_urls R b e)) v ->
     rstrip_chars "/" (strip (str_or b "https://api-inference.modelscope.cn")) = pre ++ v ->
     fst (modelscope_z_image.init_urls R b e) = rstrip_chars "/" pre)
  /\ (forall b,
     exists head,
       before_generation_path
         (rstrip_chars "/" (strip (str_or b "https://dashscope.aliyuncs.com/api/v1"))) head
       /\ completes_version head (wan26_t2i.init_base_url b))
  /\ Forall
       (fun b =>
          fst (modelscope_z_image.init_urls R b None)
          ++ snd (modelscope_z_image.init_urls R b None)
          = lit "https://api-inference.modelscope.cn/v1/images/generations")
       [None;
        Some (lit "https://api-inference.modelscope.cn");
        Some (lit "https://api-inference.modelscope.cn/");
        Some (lit "https://api-inference.modelscope.cn/v1");
        Some (lit "https://api-inference.modelscope.cn/v1/")]
  /\ Forall
       (fun b =>
          wan26_t2i.init_base_url b ++ lit wan26_t2i.GENERATION_PATH
          = lit "https://dashscope.aliyuncs.com/api/v1/services/aigc/multimodal-generation/generation")
       [None;
        Some (lit "https://dashscope.aliyuncs.com");
        Some (lit "https://dashscope.aliyuncs.com/");
        Some (lit "https://dashscope.aliyuncs.com/api");
        Some (lit "https://dashscope.aliyuncs.com/api/v1");
        Some (lit "https://dashscope.aliyuncs.com/api/v1/");
        Some (lit "https://dashscope.aliyuncs.com/api/v1/services/aigc/multimodal-generation/generation")].
Proof.
  assert (stripped : forall b e v pre,
            modelscope_z_image.version_prefix R
              (snd (modelscope_z_image.init_urls R b e)) v ->
            rstrip_chars "/" (strip (str_or b "https://api-inference.modelscope.cn"))
            = pre ++ v ->
            fst (modelscope_z_image.init_urls R b e) = rstrip_chars "/" pre).
  { intros b e v pre Hv Hb. unfold modelscope_z_image.init_urls in *. cbn [fst snd] in *.
    destruct (version_match_prefix R _ v Hv) as (g & Hg & ->).
    rewrite Hg, Hb, suffix_of_app. now rewrite slice_drop_last_app. }
  split; [exact stripped|]. split; [|split; [|split; [|split]]].
  - intros b e Hno. unfold modelscope_z_image.init_urls in *. cbn [fst snd] in *.
    destruct (modelscope_z_image.version_match R _) as [g|] eqn:Hg.
    + destruct (suffix_of (lit "/" ++ g) _) eqn:Hs; [|reflexivity].
      apply suffix_of_true in Hs as [pre Hpre].
      exfalso. apply (Hno (lit "/" ++ g) pre); [|exact Hpre].
      now apply version_match_some.
    + rewrite (version_match_none_v1 R _ Hg). now rewrite andb_false_r.
  - intros b e v pre Hv. apply stripped. now apply version_segment_prefix.
  - intros b. unfold wan26_t2i.init_base_url. cbv zeta.
    set (s := rstrip_chars "/" (strip (str_or b "https://dashscope.aliyuncs.com/api/v1"))).
    unfold wan26_t2i.strip_generation_path, contains, split_once.
    destruct (find (lit wan26_t2i.GENERATION_PATH) s) as [i|] eqn:Hf.
    + exists (rstrip_chars "/" (firstn i s)). split; [|apply with_api_version_completes].
      right. destruct (find_some _ _ i Hf) as (post & Hs & Hl & Hmin).
      exists (firstn i s), post. split; [exact Hs|]. split; [|reflexivity].
      rewrite Hl. exact Hmin.
    + exists s. split; [|apply with_api_version_completes].
      left. split; [|reflexivity]. now apply find_none.
  - repeat (apply Forall_cons; [vm_compute; reflexivity|]). apply Forall_nil.
  - repeat (apply Forall_cons; [vm_compute; reflexivity|]). apply Forall_nil.
Qed.

(** The claim as stated fails twice. The Wan constructor appends nothing
    to a base URL of another host, although it holds no [/api/v1]. And the
    ModelScope constructor strips the base URL's [/v1] for the endpoint
    path [/v1beta/images], which does not start with the version segment
    [/v1], nor with any: the request URL has lost the [/v1]. *)
Lemma normalization_not_as_claimed :
  (wan26_t2i.init_base_url (Some (lit "https://example.com")) = lit "https://example.com"
   /\ contains "/api/v1" (wan26_t2i.init_base_url (Some (lit "https://example.com")))
      = false)
  /\ (modelscope_z_image.init_urls Examples.latin1_runtime
        (Some (lit "https://example.com/v1")) (Some (lit "/v1beta/images"))
      = (lit "https://example.com", lit "/v1beta/images")
      /\ forall v, ~ version_segment Examples.latin1_runtime (lit "/v1beta/images") v).
Proof.
  split; [split; vm_compute; reflexivity|]. split; [vm_compute; reflexivity|].
  intros v (digits & rest & Hne & Hd & Hr & -> & He).
  change (lit "/v1beta/images")
    with ([0x2F; 0x76; 0x31; 0x62; 0x65; 0x74; 0x61; 0x2F; 0x69; 0x6D; 0x61; 0x67; 0x65;
           0x73]%N) in He.
  change (lit "/v") with [0x2F%N; 0x76%N] in He. cbn [app] in He.
  injection He as He.
  destruct digits as [|d [|d' ds]]; [congruence| |].
  - cbn [app] in He. destruct Hr as [->|[t ->]]; inversion He.
  - cbn [app] in He. inversion He; subst. discriminate Hd.
Qed.

End UrlFacts.

(* ===================================================================== *)
(** * The synchronous generator: errors, requests and outcomes *)
(* ===================================================================== *)

Module WanCoverage.
Import wan26_t2i Examples Notions StrFacts.




Section Run.

Variables (R : Runtime) (E : env) (self : Wan26T2IGenerator).
Variables (prompt : str) (aspect_ratio model size : option str) (negative_prompt : str).
Variables (prompt_extend watermark : option bool) (w : world).


(** Whatever the server answers, a run sends at most two requests and never
    sleeps: first the POST of the generation request to
    [base_url + endpoint_path] with the configured timeout, then at most one
    GET, without headers and with a timeout of 60 seconds, of a non-empty
    extracted URL. *)
Theorem wan_sends_at_most_two_requests :
  exists extra,
    sent (snd (generate_image R E self prompt aspect_ratio model size negative_prompt
                 prompt_extend watermark w))
    = sent w ++ extra
    /\ naps (snd (generate_image R E self prompt aspect_ratio model size negative_prompt
                    prompt_extend watermark w))
       = naps w
    /\ (extra = []
        \/ exists post,
             req_method post = POST
             /\ req_url post = PStr (base_url self ++ endpoint_path self)
             /\ req_timeout post = default_timeout_seconds self
             /\ (extra = [post]
                 \/ exists url, truthy url = true /\ extra = [post; get_request url [] 60])).
Proof.
  unfold generate_image, Http.bind, lift.
  destruct (validate_config self) as [v|e|]; [|exists []; rewrite app_nil_r; auto..].
  destruct (_normalize_size R size _) as [fs|e|]; [|exists []; rewrite app_nil_r; auto..].
  unfold requests_post, send.
  set (post := post_request _ _ _ _).
  assert (Hpost : req_method post = POST
                  /\ req_url post = PStr (base_url self ++ endpoint_path self)
                  /\ req_timeout post = default_timeout_seconds self)
    by (repeat split).
  destruct Hpost as (Hm & Hu & Ht).
  destruct (reply E (List.length (sent w)) post) as [e|resp].
  { exists [post]. cbn [snd after_send sent naps]. repeat split. right. exists post. auto. }
  destruct (negb (status_code resp =? 200)%Z).
  { exists [post]. cbn [snd raise after_send sent naps]. repeat split.
    right. exists post. auto. }
  unfold resolve, Http.bind, lift.
  destruct (if is_empty (content resp) then Ret (PDict []) else response_json resp)
    as [data|e|];
    [|exists [post]; cbn [snd after_send sent naps]; repeat split; right; exists post; auto..].
  destruct (_extract_image_url_or_b64 data) as [extracted|e|];
    [|exists [post]; cbn [snd after_send sent naps]; repeat split; right; exists post; auto..].
  destruct (get extracted "url") as [url|e|];
    [|exists [post]; cbn [snd after_send sent naps]; repeat split; right; exists post; auto..].
  destruct (get extracted "b64") as [b64|e|];
    [|exists [post]; cbn [snd after_send sent naps]; repeat split; right; exists post; auto..].
  destruct (truthy url) eqn:Hurl.
  - exists [post; get_request url [] 60].
    unfold requests_get, send.
    destruct (reply E _ (get_request url [] 60)) as [e|img];
      [|destruct (negb (status_code img =? 200)%Z)];
      cbn [snd raise ret after_send sent naps]; rewrite <- app_assoc;
      repeat split; right; exists post; repeat split; auto; right; exists url; auto.
  - destruct (truthy b64);
      [destruct (decode_inline b64)|];
      exists [post]; cbn [snd raise after_send sent naps]; repeat split;
      right; exists post; auto.
Qed.

(** Bytes are returned only after a generation request answered 200 with a
    non-empty JSON body: they are the body of a GET of the extracted URL
    answered 200 or, when no URL was extracted, the decoded inline payload. *)
Theorem wan_success_sound (b : list byte) :
  fst (generate_image R E self prompt aspect_ratio model size negative_prompt
         prompt_extend watermark w) = Ret b ->
  exists post resp data extracted url b64,
    req_method post = POST
    /\ reply E (List.length (sent w)) post = inr resp
    /\ status_code resp = 200%Z
    /\ is_empty (content resp) = false
    /\ json resp = Some data
    /\ _extract_image_url_or_b64 data = Ret extracted
    /\ get extracted "url" = Ret url
    /\ get extracted "b64" = Ret b64
    /\ ((truthy url = true
         /\ exists img,
              reply E (S (List.length (sent w))) (get_request url [] 60) = inr img
              /\ status_code img = 200%Z /\ content img = b)
        \/ (truthy url = false /\ truthy b64 = true /\ decode_inline b64 = Ret b)).
Proof.
  unfold generate_image, Http.bind, lift.
  destruct (validate_config self) as [v|e|]; try discriminate.
  destruct (_normalize_size R size _) as [fs|e|]; try discriminate.
  unfold requests_post, send.
  set (post := post_request _ _ _ _).
  destruct (reply E (List.length (sent w)) post) as [e|resp] eqn:Hreply; try discriminate.
  destruct (status_code resp =? 200)%Z eqn:Hstatus; try discriminate. cbn [negb].
  apply Z.eqb_eq in Hstatus.
  unfold resolve, Http.bind, lift.
  destruct (is_empty (content resp)) eqn:Hbody.
  { vm_compute. discriminate. }
  unfold response_json. destruct (json resp) as [data|] eqn:Hjson; try discriminate.
  destruct (_extract_image_url_or_b64 data) as [extracted|e|] eqn:Hx; try discriminate.
  destruct (get extracted "url") as [url|e|] eqn:Hurl; try discriminate.
  destruct (get extracted "b64") as [b64|e|] eqn:Hb64; try discriminate.
  intros H. exists post, resp, data, extracted, url, b64.
  repeat (split; [first [reflexivity|assumption]|]).
  destruct (truthy url) eqn:Tu.
  - left. split; [reflexivity|]. revert H. unfold requests_get, send.
    cbn [after_send sent]. rewrite last_length.
    destruct (reply E _ (get_request url [] 60)) as [e|img]; try discriminate.
    destruct (status_code img =? 200)%Z eqn:Hs; try discriminate.
    cbn [negb ret fst]. intros [= <-]. exists img. apply Z.eqb_eq in Hs. auto.
  - right. destruct (truthy b64) eqn:Tb; try discriminate.
    split; [reflexivity|]. split; [reflexivity|].
    revert H. now destruct (decode_inline b64).
Qed.

Section Answered.

Variable resp : response.
Hypothesis configured : is_empty (api_key self) = false.
Hypothesis size_accepted :
  exists s, _normalize_size R size (opt_or aspect_ratio (default_aspect_ratio self)) = Ret s.
Hypothesis answered : forall req, reply E (List.length (sent w)) req = inr resp.

(** A generation request answered with a status other than 200: the run
    ends in the request error, which carries the status, the first 500
    characters of the body at most, and the URL; no image is fetched. *)
Theorem wan_request_failed :
  status_code resp <> 200%Z ->
  exists post,
    generate_image R E self prompt aspect_ratio model size negative_prompt
      prompt_extend watermark w
    = (Raise (request_failed (status_code resp) (slice_to 500 (text resp))
                (base_url self ++ endpoint_path self)),
       after_send E post w)
    /\ (List.length (slice_to 500 (text resp)) <= 500)%nat.
Proof.
  intros Hs. destruct size_accepted as [fs Hfs].
  unfold generate_image, validate_config, Http.bind, lift at 1. rewrite configured.
  unfold lift at 1. rewrite Hfs. unfold requests_post, send. rewrite answered.
  apply Z.eqb_neq in Hs. rewrite Hs. cbn [negb]. eexists. split; [reflexivity|].
  unfold slice_to. rewrite length_firstn. lia.
Qed.

(** A 200 answer without a document: an empty body is not parsed and gives
    the "no image" error for the empty document, and a body that is not
    JSON makes [resp.json()] raise. Neither fetches anything. *)
Theorem wan_body_without_document :
  status_code resp = 200%Z ->
  (is_empty (content resp) = true \/ json resp = None) ->
  exists post,
    generate_image R E self prompt aspect_ratio model size negative_prompt
      prompt_extend watermark w
    = (Raise (if is_empty (content resp) then no_image (PDict [])
              else builtin JSONDecodeError),
       after_send E post w).
Proof.
  intros Hs Hbody. destruct size_accepted as [fs Hfs].
  unfold generate_image, validate_config, Http.bind, lift at 1. rewrite configured.
  unfold lift at 1. rewrite Hfs. unfold requests_post, send. rewrite answered, Hs.
  cbn [Z.eqb Pos.eqb negb]. eexists.
  unfold resolve, Http.bind, lift, response_json.
  destruct (is_empty (content resp)) eqn:He.
  - vm_compute. reflexivity.
  - destruct Hbody as [Hb|Hj]; [discriminate|]. rewrite Hj. reflexivity.
Qed.

(** A 200 answer whose document names neither a URL nor an inline payload
    (both missing or empty): the run ends in the "no image" error, which
    quotes the document, and fetches nothing. *)
Theorem wan_nothing_usable (data url b64 : pyval) :
  status_code resp = 200%Z ->
  is_empty (content resp) = false ->
  json resp = Some data ->
  _extract_image_url_or_b64 data = Ret (reference url b64) ->
  truthy url = false -> truthy b64 = false ->
  exists post,
    generate_image R E self prompt aspect_ratio model size negative_prompt
      prompt_extend watermark w
    = (Raise (no_image data), after_send E post w).
Proof.
  intros Hs Hbody Hdata Hx Hu Hb. destruct size_accepted as [fs Hfs].
  unfold generate_image, validate_config, Http.bind, lift at 1. rewrite configured.
  unfold lift at 1. rewrite Hfs. unfold requests_post, send. rewrite answered, Hs.
  cbn [Z.eqb Pos.eqb negb]. eexists.
  unfold resolve, Http.bind, lift, response_json.
  rewrite Hbody, Hdata, Hx, WanFacts.get_url, WanFacts.get_b64, Hu, Hb. reflexivity.
Qed.

End Answered.

End Run.

Lemma wan_nothing_usable_text_only :
  exists post,
    generate_image latin1_runtime
      (constant (json_response 200 (inline_document []))) wan (lit "a red fox")
      None None None [] None None start
    = (Raise (no_image (inline_document [])),
       after_send (constant (json_response 200 (inline_document []))) post start).
Proof.
  refine (wan_nothing_usable latin1_runtime
            (constant (json_response 200 (inline_document []))) wan (lit "a red fox")
            None None None [] None None start (json_response 200 (inline_document []))
            _ _ _ (inline_document []) PNone PNone _ _ _ _ _ _).
  - vm_compute; reflexivity.
  - eexists. vm_compute. reflexivity.
  - intros req. reflexivity.
  - reflexivity.
  - reflexivity.
  - reflexivity.
  - vm_compute; reflexivity.
  - reflexivity.
  - reflexivity.
Defined.


Lemma wan_success_sound_example :
  exists post resp data extracted url b64,
    req_method post = POST
    /\ reply url_then_image (List.length (sent start)) post = inr resp
    /\ status_code resp = 200%Z
    /\ is_empty (content resp) = false
    /\ json resp = Some data
    /\ _extract_image_url_or_b64 data = Ret extracted
    /\ get extracted "url" = Ret url
    /\ get extracted "b64" = Ret b64
    /\ ((truthy url = true
         /\ exists img,
              reply url_then_image (S (List.length (sent start))) (get_request url [] 60)
              = inr img
              /\ status_code img = 200%Z /\ content img = png)
        \/ (truthy url = false /\ truthy b64 = true /\ decode_inline b64 = Ret png)).
Proof.
  refine (wan_success_sound latin1_runtime url_then_image wan (lit "a red fox") None None
            None [] None None start png _).
  vm_compute; reflexivity.
Defined.

Lemma wan_request_failed_500 :
  exists post,
    generate_image latin1_runtime refusing wan (lit "a red fox") None None None []
      None None start
    = (Raise (request_failed 500 (slice_to 500 (lit "(json)"))
                (base_url wan ++ endpoint_path wan)),
       after_send refusing post start)
    /\ (List.length (slice_to 500 (lit "(json)")) <= 500)%nat.
Proof.
  refine (wan_request_failed latin1_runtime refusing wan (lit "a red fox") None None
            None [] None None start (json_response 500 (PDict [])) _ _ _ _).
  - vm_compute; reflexivity.
  - eexists. vm_compute. reflexivity.
  - intros req. reflexivity.
  - vm_compute. discriminate.
Defined.

Lemma wan_body_without_document_empty :
  exists post,
    generate_image latin1_runtime silent wan (lit "a red fox") None None None []
      None None start
    = (Raise (no_image (PDict [])), after_send silent post start).
Proof.
  refine (wan_body_without_document latin1_runtime silent wan (lit "a red fox") None None
            None [] None None start (bytes_response 200 []) _ _ _ _ _).
  - vm_compute; reflexivity.
  - eexists. vm_compute. reflexivity.
  - intros req. reflexivity.
  - reflexivity.
  - left. reflexivity.
Defined.

End WanCoverage.

(* ===================================================================== *)
(** * The asynchronous generator: what a run sends and when it returns *)
(* ===================================================================== *)

Module ModelScopeCoverage.
Import modelscope_z_image Examples Notions StrFacts.

Lemma str_eqb_true (a b : str) : str_eqb a b = true -> a = b.
Proof. unfold str_eqb. now destruct (list_eq_dec N.eq_dec a b). Qed.

(** The branch taken on [SUCCEED] either raises without sending anything,
    or downloads the first image, a string that is not blank. *)
Lemma on_succeed_cases (E : env) (task_data : pyval) (w : world) :
  (snd (on_succeed E task_data w) = w
   /\ forall b, fst (on_succeed E task_data w) <> Ret b)
  \/ exists images u more,
       get task_data "output_images" = Ret images
       /\ py_or images (PList []) = PList (PStr u :: more)
       /\ is_empty (strip u) = false
       /\ on_succeed E task_data w
          = (match reply E (List.length (sent w)) (get_request (PStr u) [] 120) with
             | inr img =>
               if (status_code img =? 200)%Z then Ret (content img)
               else Raise (download_failed (status_code img) u (slice_to 200 (text img)))
             | inl e => Raise e
             end,
             after_send E (get_request (PStr u) [] 120) w).
Proof.
  unfold on_succeed, Http.bind, lift.
  destruct (get task_data "output_images") as [images|e|];
    [|left; split; [reflexivity|discriminate]..].
  destruct (py_or images (PList [])) as [| | | | |[|image_url l]|] eqn:Hi;
    try (left; split; [reflexivity|discriminate]).
  destruct image_url as [| | | |u| |];
    try (left; split; [reflexivity|discriminate]).
  destruct (is_empty (strip u)) eqn:Hu;
    [left; split; [reflexivity|discriminate]|].
  right. exists images, u, l.
  split; [reflexivity|]. split; [exact Hi|]. split; [exact Hu|].
  unfold requests_get, send.
  destruct (reply E (List.length (sent w)) (get_request (PStr u) [] 120)) as [e|img];
    [reflexivity|].
  now destruct (status_code img =? 200)%Z.
Qed.

Lemma on_failed_sends_nothing (task_data : pyval) (w : world) :
  snd (on_failed task_data w) = w /\ forall b, fst (on_failed task_data w) <> Ret b.
Proof.
  unfold on_failed, Http.bind, lift, raise.
  destruct (get task_data "message"); [|split; [reflexivity|discriminate]..].
  destruct (get task_data "error"); [|split; [reflexivity|discriminate]..].
  destruct (get task_data "output"); split; try reflexivity; discriminate.
Qed.

Section Loop.

Variables (R : Runtime) (E : env) (self : ModelScopeZImageGenerator).
Variables (task_id : pyval) (task_url : str) (status_headers : list (string * str)).
Variable deadline : Q.

(** What the loop sends, whatever it is answered: the same poll a number
    of times, each but the last answered 200, then at most one download;
    and it sleeps the poll interval, at most once per poll. *)
Lemma poll_loop_trace (fuel : nat) :
  forall (last_status : pyval) (w : world),
  exists polls sleeps tail,
    sent (snd (poll_loop fuel R E self task_id task_url status_headers deadline
                 last_status w))
    = sent w ++ repeat (get_request (PStr task_url) status_headers 60) polls ++ tail
    /\ naps (snd (poll_loop fuel R E self task_id task_url status_headers deadline
                    last_status w))
       = naps w ++ repeat (poll_interval_seconds self) sleeps
    /\ (polls <= fuel)%nat /\ (sleeps <= polls)%nat
    /\ (tail = []
        \/ exists u, is_empty (strip u) = false /\ tail = [get_request (PStr u) [] 120])
    /\ (forall i, (S i < polls + List.length tail)%nat ->
        exists r,
          reply E (List.length (sent w) + i) (get_request (PStr task_url) status_headers 60)
          = inr r
          /\ status_code r = 200%Z).
Proof.
  induction fuel as [|fuel IH]; intros last_status w.
  { exists 0%nat, 0%nat, []. cbn. rewrite !app_nil_r.
    repeat split; auto; intros; lia. }
  remember (poll_loop (S fuel) R E self task_id task_url status_headers deadline
              last_status w) as out eqn:Hout.
  cbn [poll_loop] in Hout. unfold Http.bind at 1, time_time in Hout.
  destruct (Qle_bool (now w) deadline); cbn [negb] in Hout.
  2: { subst out. exists 0%nat, 0%nat, []. cbn. rewrite !app_nil_r.
       repeat split; auto; intros; lia. }
  assert (one : forall (r : res (list byte)),
             out = (r, after_send E (get_request (PStr task_url) status_headers 60) w) ->
             exists polls sleeps tail,
               sent (snd out)
               = sent w ++ repeat (get_request (PStr task_url) status_headers 60) polls
                   ++ tail
               /\ naps (snd out) = naps w ++ repeat (poll_interval_seconds self) sleeps
               /\ (polls <= S fuel)%nat /\ (sleeps <= polls)%nat
               /\ (tail = []
                   \/ exists u, is_empty (strip u) = false
                                /\ tail = [get_request (PStr u) [] 120])
               /\ (forall i, (S i < polls + List.length tail)%nat ->
                   exists r,
                     reply E (List.length (sent w) + i)
                       (get_request (PStr task_url) status_headers 60) = inr r
                     /\ status_code r = 200%Z)).
  { intros r ->. exists 1%nat, 0%nat, []. cbn. rewrite !app_nil_r.
    repeat split; auto; intros; lia. }
  unfold Http.bind at 1, requests_get at 1, send in Hout.
  destruct (reply E (List.length (sent w)) (get_request (PStr task_url) status_headers 60))
    as [e|r] eqn:Hr; [eapply one, Hout|].
  destruct (status_code r =? 200)%Z eqn:Hs; cbn [negb] in Hout; [|eapply one, Hout].
  apply Z.eqb_eq in Hs.
  unfold Http.bind at 1, lift at 1 in Hout.
  destruct (response_json r) as [j|e|]; [|eapply one, Hout..].
  unfold Http.bind at 1, lift at 1 in Hout.
  destruct (read_status R (py_or j (PDict []))) as [ts|e|]; [|eapply one, Hout..].
  destruct (str_eqb ts (lit "SUCCEED")).
  { set (w1 := after_send E (get_request (PStr task_url) status_headers 60) w) in *.
    destruct (on_succeed_cases E (py_or j (PDict [])) w1)
      as [[Hw _]|(images & u & more & _ & _ & Hu & Hrun)].
    - apply (one (fst out)). subst out.
      apply injective_projections; [reflexivity|exact Hw].
    - rewrite Hrun in Hout. subst out.
      exists 1%nat, 0%nat, [get_request (PStr u) [] 120].
      cbn [snd after_send sent naps w1 repeat List.length]. rewrite <- app_assoc, app_nil_r.
      repeat split; auto; try lia.
      + right. exists u. auto.
      + intros i Hi. assert (i = 0%nat) as -> by (cbn in Hi; lia). rewrite Nat.add_0_r.
        exists r. auto. }
  destruct (str_eqb ts (lit "FAILED")).
  { destruct (on_failed_sends_nothing (py_or j (PDict []))
                (after_send E (get_request (PStr task_url) status_headers 60) w))
      as [Hw _].
    apply (one (fst out)). subst out.
    apply injective_projections; [reflexivity|exact Hw]. }
  unfold Http.bind at 1, time_sleep in Hout.
  destruct (Qle_bool 0 (poll_interval_seconds self)); cbn [negb] in Hout;
    [|eapply one, Hout].
  set (w2 := after_sleep E (poll_interval_seconds self)
               (after_send E (get_request (PStr task_url) status_headers 60) w)) in *.
  destruct (IH (if is_empty ts then last_status else PStr ts) w2)
    as (polls & sleeps & tail & Hsent & Hnaps & Hp & Hsl & Htail & Hans).
  rewrite <- Hout in Hsent, Hnaps.
  exists (S polls), (S sleeps), tail.
  rewrite Hsent, Hnaps. unfold w2. cbn [after_sleep after_send sent naps repeat].
  rewrite <- !app_assoc. repeat split; auto; try lia.
  intros [|i] Hi.
  - rewrite Nat.add_0_r. exists r. auto.
  - destruct (Hans i) as (r' & Hr' & Hs'); [cbn in Hi; lia|].
    exists r'. split; [|exact Hs'].
    rewrite <- Hr'. unfold w2. cbn [after_sleep after_send sent].
    rewrite last_length. f_equal. lia.
Qed.

(** The loop returns bytes only as the body of a download answered 200,
    of the first image of a poll that reported success, sent right after
    that poll. *)
Lemma poll_loop_sound (fuel : nat) :
  forall (last_status : pyval) (w : world) (b : list byte),
  fst (poll_loop fuel R E self task_id task_url status_headers deadline last_status w)
  = Ret b ->
  exists n answer u img,
    (List.length (sent w) <= n)%nat
    /\ reply E n (get_request (PStr task_url) status_headers 60) = inr answer
    /\ succeeded_with R answer u
    /\ reply E (S n) (get_request (PStr u) [] 120) = inr img
    /\ status_code img = 200%Z
    /\ content img = b.
Proof.
  induction fuel as [|fuel IH]; intros last_status w b; [discriminate|].
  cbn [poll_loop]. unfold Http.bind at 1, time_time.
  destruct (Qle_bool (now w) deadline); cbn [negb]; [|discriminate].
  unfold Http.bind at 1, requests_get at 1, send.
  destruct (reply E (List.length (sent w)) (get_request (PStr task_url) status_headers 60))
    as [e|r] eqn:Hr; [discriminate|].
  destruct (status_code r =? 200)%Z eqn:Hs; cbn [negb]; [|discriminate].
  apply Z.eqb_eq in Hs.
  unfold Http.bind at 1, lift at 1, response_json.
  destruct (json r) as [j|] eqn:Hj; [|discriminate].
  unfold Http.bind at 1, lift at 1.
  destruct (read_status R (py_or j (PDict []))) as [ts|e|] eqn:Hts; try discriminate.
  destruct (str_eqb ts (lit "SUCCEED")) eqn:Hsucc.
  { apply str_eqb_true in Hsucc. subst ts.
    set (w1 := after_send E (get_request (PStr task_url) status_headers 60) w).
    destruct (on_succeed_cases E (py_or j (PDict [])) w1)
      as [[_ Hno]|(images & u & more & Hget & Himg & Hu & ->)].
    - intros H. now apply Hno in H.
    - cbn [fst]. unfold w1. cbn [after_send sent]. rewrite last_length.
      destruct (reply E (S (List.length (sent w))) (get_request (PStr u) [] 120))
        as [e|img] eqn:Hd; [discriminate|].
      destruct (status_code img =? 200)%Z eqn:Hds; [|discriminate].
      intros [= <-]. apply Z.eqb_eq in Hds.
      exists (List.length (sent w)), r, u, img. repeat split; auto.
      exists j, images, more. auto. }
  destruct (str_eqb ts (lit "FAILED")).
  { intros H. now apply on_failed_sends_nothing in H. }
  unfold Http.bind at 1, time_sleep.
  destruct (Qle_bool 0 (poll_interval_seconds self)); cbn [negb]; [|discriminate].
  intros H. apply IH in H as (n & answer & u & img & Hn & H).
  exists n, answer, u, img. split; [|exact H].
  cbn [after_sleep after_send sent] in Hn. rewrite last_length in Hn. lia.
Qed.

End Loop.

Section Run.

Variables (fuel : nat) (R : Runtime) (E : env) (self : ModelScopeZImageGenerator).
Variables (prompt model : option str) (size : pyval) (w : world).

(** Every run either sends nothing and fails, or sends the creation
    request, then polls of the task the answer named, then at most one
    download. *)
Lemma generate_image_trace :
  (snd (generate_image fuel R E self prompt model size w) = w
   /\ forall b, fst (generate_image fuel R E self prompt model size w) <> Ret b)
  \/ exists task_id polls sleeps tail,
       sent (snd (generate_image fuel R E self prompt model size w))
       = sent w ++ create_request self prompt model size
                   :: repeat (poll_request R self task_id) polls ++ tail
       /\ naps (snd (generate_image fuel R E self prompt model size w))
          = naps w ++ repeat (poll_interval_seconds self) sleeps
       /\ (polls <= fuel)%nat /\ (sleeps <= polls)%nat
       /\ (tail = []
           \/ exists u, is_empty (strip u) = false /\ tail = [get_request (PStr u) [] 120])
       /\ (forall i, (S i < polls + List.length tail)%nat ->
           exists r,
             reply E (S (List.length (sent w)) + i) (poll_request R self task_id) = inr r
             /\ status_code r = 200%Z)
       /\ ((0 < polls + List.length tail)%nat ->
           exists created,
             reply E (List.length (sent w)) (create_request self prompt model size)
             = inr created
             /\ names_task created task_id).
Proof.
  remember (generate_image fuel R E self prompt model size w) as out eqn:Hout.
  unfold generate_image in Hout. cbv zeta in Hout.
  unfold Http.bind at 1, lift at 1 in Hout.
  destruct (validate_config self) as [v|e|];
    [|left; subst out; split; [reflexivity|discriminate]..].
  destruct (is_empty (strip (opt_or model (modelscope_z_image.model self)))).
  { left; subst out; split; [reflexivity|discriminate]. }
  right.
  unfold Http.bind at 1, requests_post, send in Hout.
  change (post_request _ _ _ _) with (create_request self prompt model size) in Hout.
  assert (stop : forall r : res (list byte),
             out = (r, after_send E (create_request self prompt model size) w) ->
             exists task_id polls sleeps tail,
               sent (snd out)
               = sent w ++ create_request self prompt model size
                           :: repeat (poll_request R self task_id) polls ++ tail
               /\ naps (snd out) = naps w ++ repeat (poll_interval_seconds self) sleeps
               /\ (polls <= fuel)%nat /\ (sleeps <= polls)%nat
               /\ (tail = []
                   \/ exists u, is_empty (strip u) = false
                                /\ tail = [get_request (PStr u) [] 120])
               /\ (forall i, (S i < polls + List.length tail)%nat ->
                   exists r,
                     reply E (S (List.length (sent w)) + i) (poll_request R self task_id)
                     = inr r
                     /\ status_code r = 200%Z)
               /\ ((0 < polls + List.length tail)%nat ->
                   exists created,
                     reply E (List.length (sent w)) (create_request self prompt model size)
                     = inr created
                     /\ names_task created task_id)).
  { intros r ->. exists PNone, 0%nat, 0%nat, []. cbn. rewrite !app_nil_r.
    repeat split; auto; intros; lia. }
  destruct (reply E (List.length (sent w)) (create_request self prompt model size))
    as [e|created] eqn:Hc; [eapply stop, Hout|].
  destruct (status_code created =? 200)%Z eqn:Hs; cbn [negb] in Hout;
    [|eapply stop, Hout].
  apply Z.eqb_eq in Hs.
  unfold Http.bind at 1, lift at 1, response_json in Hout.
  destruct (json created) as [doc|] eqn:Hdoc; [|eapply stop, Hout].
  unfold Http.bind at 1, lift at 1 in Hout.
  destruct (get (py_or doc (PDict [])) "task_id") as [a|e|] eqn:Ha;
    [|eapply stop, Hout..].
  unfold Http.bind at 1, lift at 1 in Hout.
  destruct (get (py_or doc (PDict [])) "id") as [b|e|] eqn:Hb;
    [|eapply stop, Hout..].
  destruct (truthy (py_or a b)) eqn:Hid; cbn [negb] in Hout; [|eapply stop, Hout].
  unfold Http.bind at 1, time_time in Hout.
  match type of Hout with
  | _ = poll_loop _ _ _ _ _ ?url ?hdrs ?deadline _ ?w1 =>
    destruct (poll_loop_trace R E self (py_or a b) url hdrs deadline fuel PNone w1)
      as (polls & sleeps & tail & Hsent & Hnaps & Hp & Hsl & Htail & Hans)
  end.
  rewrite <- Hout in Hsent, Hnaps.
  exists (py_or a b), polls, sleeps, tail.
  rewrite Hsent, Hnaps. cbn [after_send sent naps]. rewrite <- app_assoc.
  split; [reflexivity|]. split; [reflexivity|].
  split; [exact Hp|]. split; [exact Hsl|]. split; [exact Htail|]. split.
  - intros i Hi. destruct (Hans i Hi) as (r & Hr & Hr200).
    exists r. split; [|exact Hr200]. rewrite <- Hr.
    cbn [after_send sent]. rewrite last_length. reflexivity.
  - intros _. exists created. split; [reflexivity|]. split; [exact Hs|].
    exists doc, a, b. auto.
Qed.

(** Bytes are returned only when the creation request was answered 200
    with a task id, a later poll of that task was answered 200 with the
    status [SUCCEED] and a first image URL that is not blank, and the
    download of that URL, the next request, was answered 200: the bytes are
    the body of that download. *)
Theorem modelscope_success_sound (bytes : list byte) :
  fst (generate_image fuel R E self prompt model size w) = Ret bytes ->
  exists created task_id n answer u img,
    reply E (List.length (sent w)) (create_request self prompt model size) = inr created
    /\ names_task created task_id
    /\ (List.length (sent w) < n)%nat
    /\ reply E n (poll_request R self task_id) = inr answer
    /\ succeeded_with R answer u
    /\ reply E (S n) (get_request (PStr u) [] 120) = inr img
    /\ status_code img = 200%Z
    /\ content img = bytes.
Proof.
  unfold generate_image. cbv zeta.
  unfold Http.bind at 1, lift at 1.
  destruct (validate_config self) as [v|e|]; try discriminate.
  destruct (is_empty (strip (opt_or model (modelscope_z_image.model self))));
    [discriminate|].
  unfold Http.bind at 1, requests_post, send.
  change (post_request _ _ _ _) with (create_request self prompt model size).
  destruct (reply E (List.length (sent w)) (create_request self prompt model size))
    as [e|created] eqn:Hc; [discriminate|].
  destruct (status_code created =? 200)%Z eqn:Hs; cbn [negb]; [|discriminate].
  apply Z.eqb_eq in Hs.
  unfold Http.bind at 1, lift at 1, response_json.
  destruct (json created) as [doc|] eqn:Hdoc; [|discriminate].
  unfold Http.bind at 1, lift at 1.
  destruct (get (py_or doc (PDict [])) "task_id") as [a|e|] eqn:Ha; try discriminate.
  unfold Http.bind at 1, lift at 1.
  destruct (get (py_or doc (PDict [])) "id") as [b|e|] eqn:Hb; try discriminate.
  destruct (truthy (py_or a b)) eqn:Hid; cbn [negb]; [|discriminate].
  unfold Http.bind at 1, time_time.
  intros H. apply poll_loop_sound in H as (n & answer & u & img & Hn & H).
  exists created, (py_or a b), n, answer, u, img.
  split; [reflexivity|]. split.
  { split; [exact Hs|]. exists doc, a, b. auto. }
  split; [|exact H].
  cbn [after_send sent] in Hn. rewrite last_length in Hn. lia.
Qed.

(** Whatever the server answers, a run sends nothing at all, or the
    creation request, then one and the same poll of the task at most [fuel]
    times, then at most one download, without headers, of a URL that is
    not blank. Every poll that is followed by another request was answered
    200: a poll that fails is never repeated. The run sleeps the poll
    interval only, at most once per poll. *)
Theorem modelscope_requests :
  exists extra sleeps,
    sent (snd (generate_image fuel R E self prompt model size w)) = sent w ++ extra
    /\ naps (snd (generate_image fuel R E self prompt model size w))
       = naps w ++ repeat (poll_interval_seconds self) sleeps
    /\ ((extra = [] /\ sleeps = 0%nat)
        \/ exists task_id polls tail,
             extra = create_request self prompt model size
                     :: repeat (poll_request R self task_id) polls ++ tail
             /\ (polls <= fuel)%nat /\ (sleeps <= polls)%nat
             /\ (tail = []
                 \/ exists u, is_empty (strip u) = false
                              /\ tail = [get_request (PStr u) [] 120])
             /\ (forall i, (S i < polls + List.length tail)%nat ->
                 exists r,
                   reply E (S (List.length (sent w)) + i) (poll_request R self task_id)
                   = inr r
                   /\ status_code r = 200%Z)).
Proof.
  destruct generate_image_trace
    as [[Hw _]|(task_id & polls & sleeps & tail & Hsent & Hnaps & Hp & Hsl & Ht & Ha & _)].
  - exists [], 0%nat. rewrite Hw. cbn [repeat]. rewrite !app_nil_r. auto.
  - exists (create_request self prompt model size
            :: repeat (poll_request R self task_id) polls ++ tail), sleeps.
    split; [exact Hsent|]. split; [exact Hnaps|].
    right. exists task_id, polls, tail. auto.
Qed.

Lemma normalize_prompt_within (p : option str) :
  (Z.of_nat (List.length (_normalize_prompt self p)) <= Z.max (max_prompt_chars self) 100)%Z
  /\ strip (_normalize_prompt self p) = _normalize_prompt self p.
Proof.
  unfold _normalize_prompt.
  set (text := strip match p with Some p => p | None => [] end).
  set (m := if (max_prompt_chars self <? 100)%Z then 100%Z else max_prompt_chars self).
  assert (Hm : m = Z.max (max_prompt_chars self) 100).
  { unfold m. destruct (Z.ltb_spec (max_prompt_chars self) 100); lia. }
  destruct (Z.leb_spec (Z.of_nat (List.length text)) m) as [Hle|Hgt].
  - split; [lia|apply strip_idem].
  - split.
    + pose proof (rstrip_length (slice_to (Z.to_nat m) text)) as H1.
      unfold slice_to in *. rewrite length_firstn in H1. lia.
    + unfold strip at 1.
      rewrite (rstrip_keeps_left (slice_to (Z.to_nat m) text)).
      * apply rstrip_idem.
      * unfold slice_to, lstrip, lstrip_by. apply firstn_keeps_left. apply lstrip_strip.
Qed.

(** The first request of a run, when there is one, carries the normalized
    prompt: trimmed, and of at most [max(max_prompt_chars, 100)]
    characters, however long the prompt given. *)
Theorem prompt_sent_bounded (first : request) (rest : list request) :
  sent (snd (generate_image fuel R E self prompt model size w)) = sent w ++ first :: rest ->
  exists payload p,
    req_json first = Some (PDict payload)
    /\ dict_get payload "prompt" = PStr p
    /\ p = _normalize_prompt self prompt
    /\ (Z.of_nat (List.length p) <= Z.max (max_prompt_chars self) 100)%Z
    /\ strip p = p.
Proof.
  intros Hsent.
  destruct generate_image_trace
    as [[Hw _]|(task_id & polls & sleeps & tail & Hrun & _)].
  - rewrite Hw in Hsent. rewrite <- (app_nil_r (sent w)) in Hsent at 1.
    apply app_inv_head in Hsent. discriminate.
  - rewrite Hrun in Hsent. apply app_inv_head in Hsent. injection Hsent as <- _.
    destruct (normalize_prompt_within prompt) as [Hlen Hstrip].
    eexists. exists (_normalize_prompt self prompt).
    split; [reflexivity|]. split; [reflexivity|]. auto.
Qed.

(** A generator without an API key, without a base URL, or asked for a
    blank model raises [ValueError] before it sends anything. *)
Theorem modelscope_configuration_errors :
  is_empty (api_key self) = true
  \/ is_empty (base_url self) = true
  \/ is_empty (strip (opt_or model (modelscope_z_image.model self))) = true ->
  exists m,
    generate_image fuel R E self prompt model size w = (Raise (Raised ValueError m), w).
Proof.
  intros H. unfold generate_image, validate_config. cbv zeta.
  unfold Http.bind at 1, lift at 1.
  destruct (is_empty (api_key self)); [eexists; reflexivity|].
  destruct (is_empty (base_url self)); [eexists; reflexivity|].
  destruct (is_empty (strip (opt_or model (modelscope_z_image.model self))));
    [eexists; reflexivity|].
  destruct H as [H|[H|H]]; discriminate.
Qed.

(** A creation answered 200 whose document holds no task id, under
    [task_id] or [id]: the run ends in the "no task id" error, after that
    one request. A document that is false ([null], [{}], [[]], 0, the empty
    string) counts as the empty dict. *)
Theorem modelscope_missing_task_id (created : response) (doc : pyval)
    (fields : list (str * pyval)) :
  is_empty (api_key self) = false ->
  is_empty (base_url self) = false ->
  is_empty (strip (opt_or model (modelscope_z_image.model self))) = false ->
  (forall req, reply E (List.length (sent w)) req = inr created) ->
  status_code created = 200%Z ->
  json created = Some doc ->
  py_or doc (PDict []) = PDict fields ->
  truthy (dict_get fields "task_id") = false ->
  truthy (dict_get fields "id") = false ->
  generate_image fuel R E self prompt model size w
  = (Raise (no_task_id (PDict fields)),
     after_send E (create_request self prompt model size) w).
Proof.
  intros Hkey Hbase Hmodel Hr Hs Hdoc Hfields Ha Hb.
  unfold generate_image, validate_config. cbv zeta.
  unfold Http.bind at 1, lift at 1. rewrite Hkey, Hbase, Hmodel.
  unfold Http.bind at 1, requests_post, send. rewrite Hr, Hs.
  cbn [Z.eqb Pos.eqb negb].
  unfold Http.bind at 1, lift at 1, response_json. rewrite Hdoc, Hfields.
  unfold Http.bind at 1, lift at 1, get.
  unfold Http.bind at 1, lift at 1.
  unfold py_or at 1. rewrite Ha, Hb. reflexivity.
Qed.

End Run.

(** Truncation only drops the end of the trimmed prompt: the result is a
    prefix of it, the whole of it when it is short enough, and normalizing
    a normalized prompt changes nothing. *)
Theorem normalize_prompt_prefix_idempotent (self : ModelScopeZImageGenerator)
    (prompt : option str) :
  (exists dropped,
     strip (match prompt with Some p => p | None => [] end)
     = _normalize_prompt self prompt ++ dropped)
  /\ ((Z.of_nat (List.length (strip (match prompt with Some p => p | None => [] end)))
       <= Z.max (max_prompt_chars self) 100)%Z ->
      _normalize_prompt self prompt = strip (match prompt with Some p => p | None => [] end))
  /\ _normalize_prompt self (Some (_normalize_prompt self prompt))
     = _normalize_prompt self prompt.
Proof.
  split; [|split].
  - unfold _normalize_prompt.
    set (text := strip match prompt with Some p => p | None => [] end).
    destruct (Z.of_nat (List.length text) <=? _)%Z.
    + exists []. now rewrite app_nil_r.
    + set (m := Z.to_nat _).
      exists (rev (takewhile isspace (rev (slice_to m text))) ++ skipn m text).
      rewrite app_assoc. unfold rstrip, rstrip_by.
      rewrite <- rev_app_distr, takewhile_dropwhile, rev_involutive.
      unfold slice_to. now rewrite firstn_skipn.
  - intros H. unfold _normalize_prompt.
    set (text := strip match prompt with Some p => p | None => [] end) in *.
    replace (if (max_prompt_chars self <? 100)%Z then 100%Z else max_prompt_chars self)
      with (Z.max (max_prompt_chars self) 100)
      by (destruct (Z.ltb_spec (max_prompt_chars self) 100); lia).
    destruct (Z.leb_spec (Z.of_nat (List.length text)) (Z.max (max_prompt_chars self) 100));
      [reflexivity|lia].
  - destruct (normalize_prompt_within self prompt) as [Hlen Hstrip].
    unfold _normalize_prompt at 1. rewrite Hstrip.
    replace (if (max_prompt_chars self <? 100)%Z then 100%Z else max_prompt_chars self)
      with (Z.max (max_prompt_chars self) 100)
      by (destruct (Z.ltb_spec (max_prompt_chars self) 100); lia).
    destruct (Z.leb_spec (Z.of_nat (List.length (_normalize_prompt self prompt)))
                (Z.max (max_prompt_chars self) 100));
      [reflexivity|lia].
Qed.

Lemma modelscope_success_sound_happy_path :
  exists created task_id n answer u img,
    reply happy_path (List.length (sent start))
      (create_request modelscope (Some (lit "a red fox")) None PNone) = inr created
    /\ names_task created task_id
    /\ (List.length (sent start) < n)%nat
    /\ reply happy_path n (poll_request latin1_runtime modelscope task_id) = inr answer
    /\ succeeded_with latin1_runtime answer u
    /\ reply happy_path (S n) (get_request (PStr u) [] 120) = inr img
    /\ status_code img = 200%Z
    /\ content img = png.
Proof.
  refine (modelscope_success_sound 200 latin1_runtime happy_path modelscope
            (Some (lit "a red fox")) None PNone start png _).
  vm_compute; reflexivity.
Defined.

Lemma prompt_sent_bounded_example :
  exists payload p,
    req_json (create_request modelscope (Some (lit "  a red fox  ")) None PNone)
    = Some (PDict payload)
    /\ dict_get payload "prompt" = PStr p
    /\ p = _normalize_prompt modelscope (Some (lit "  a red fox  "))
    /\ (Z.of_nat (List.length p) <= Z.max (max_prompt_chars modelscope) 100)%Z
    /\ strip p = p.
Proof.
  refine (prompt_sent_bounded 200 latin1_runtime refusing modelscope
            (Some (lit "  a red fox  ")) None PNone start
            (create_request modelscope (Some (lit "  a red fox  ")) None PNone) [] _).
  vm_compute; reflexivity.
Defined.

Lemma modelscope_configuration_errors_blank_model :
  exists m,
    generate_image 200 latin1_runtime silent modelscope (Some (lit "a red fox"))
      (Some (lit "   ")) PNone start
    = (Raise (Raised ValueError m), start).
Proof.
  refine (modelscope_configuration_errors 200 latin1_runtime silent modelscope
            (Some (lit "a red fox")) (Some (lit "   ")) PNone start _).
  right. right. vm_compute; reflexivity.
Defined.

Lemma modelscope_missing_task_id_empty_document :
  generate_image 200 latin1_runtime anonymous modelscope (Some (lit "a red fox")) None
    PNone start
  = (Raise (no_task_id (PDict [])),
     after_send anonymous (create_request modelscope (Some (lit "a red fox")) None PNone)
       start).
Proof.
  refine (modelscope_missing_task_id 200 latin1_runtime anonymous modelscope
            (Some (lit "a red fox")) None PNone start
            (json_response 200 (PDict [])) (PDict []) [] _ _ _ _ _ _ _ _ _);
    try (intros req; reflexivity); vm_compute; reflexivity.
Defined.

End ModelScopeCoverage.

(* ===================================================================== *)
(** * What the constructors guarantee *)
(* ===================================================================== *)

Module ConstructorFacts.
Import StrFacts.

Lemma dropwhile_head {A} (p : A -> bool) (l : list A) (x : A) (t : list A) :
  dropwhile p l = x :: t -> p x = false.
Proof.
  induction l as [|y l IH]; [discriminate|]. simpl.
  destruct (p y) eqn:Hy; [exact IH|]. now intros [= <- _].
Qed.

Lemma rstrip_chars_no_slash (s : str) : endswith (rstrip_chars "/" s) "/" = false.
Proof.
  unfold endswith, suffix_of, rstrip_chars, rstrip_by. rewrite rev_involutive.
  destruct (dropwhile _ (rev s)) as [|c t] eqn:H; [reflexivity|].
  apply dropwhile_head in H.
  change (lit "/") with [0x2F%N] in *. cbn [existsb] in H. cbn [rev app prefix_of].
  rewrite orb_false_r in H. rewrite N.eqb_sym, H. reflexivity.
Qed.


Lemma with_prefix_slash (s : str) :
  startswith (if negb (startswith s "/") then lit "/" ++ s else s) "/" = true.
Proof. destruct (startswith s "/") eqn:H; [exact H|reflexivity]. Qed.

(** Whatever the configuration, the asynchronous generator is built with a
    base URL that does not end with a slash and with endpoint paths that
    start with one, so that the URLs it joins hold exactly one slash at the
    joint; and its model is not empty. *)
Theorem modelscope_init_invariants (R : Runtime) (c : modelscope_z_image.config) :
  endswith (modelscope_z_image.base_url (modelscope_z_image.__init__ R c)) "/" = false
  /\ startswith (modelscope_z_image.endpoint_type (modelscope_z_image.__init__ R c)) "/"
     = true
  /\ startswith (modelscope_z_image.task_endpoint (modelscope_z_image.__init__ R c)) "/"
     = true
  /\ is_empty (modelscope_z_image.model (modelscope_z_image.__init__ R c)) = false.
Proof.
  unfold modelscope_z_image.__init__.
  cbn [modelscope_z_image.base_url modelscope_z_image.endpoint_type
       modelscope_z_image.task_endpoint modelscope_z_image.model].
  repeat split.
  - unfold modelscope_z_image.init_urls. cbv zeta. cbn [fst].
    destruct (modelscope_z_image.version_match R _).
    + destruct (suffix_of _ _); apply rstrip_chars_no_slash.
    + destruct (_ && _); apply rstrip_chars_no_slash.
  - unfold modelscope_z_image.init_urls. cbv zeta. cbn [snd]. apply with_prefix_slash.
  - apply with_prefix_slash.
  - unfold str_or, opt_or. now destruct (modelscope_z_image.cfg_model c) as [[|x t]|].
Qed.


End ConstructorFacts.

(* ===================================================================== *)
(** * Sizes on which [_normalize_size] cannot fail *)
(* ===================================================================== *)

Module SizeCoverage.
Import wan26_t2i Examples Notions StrFacts SizeFacts.

Lemma forallb_dropwhile {A} (q p : A -> bool) (l : list A) :
  forallb q l = true -> forallb q (dropwhile p l) = true.
Proof.
  induction l as [|x t IH]; [reflexivity|]. intros H. cbn [dropwhile].
  destruct (p x); [|exact H]. cbn [forallb] in H. apply andb_prop in H as [_ H]. auto.
Qed.

Lemma forallb_reversed {A} (q : A -> bool) (l : list A) :
  forallb q l = true -> forallb q (rev l) = true.
Proof.
  rewrite !forallb_forall. intros H x Hx. apply H. now apply in_rev.
Qed.

Lemma strip_keeps {q : N -> bool} (s : str) :
  forallb q s = true -> forallb q (strip s) = true.
Proof.
  intros H. unfold strip, rstrip, rstrip_by, lstrip, lstrip_by.
  now apply forallb_reversed, forallb_dropwhile, forallb_reversed, forallb_dropwhile.
Qed.

Lemma strip_length (s : str) : (List.length (strip s) <= List.length s)%nat.
Proof.
  unfold strip. pose proof (rstrip_length (lstrip s)) as H1.
  pose proof (dropwhile_length isspace s) as H2. unfold lstrip, lstrip_by in *. lia.
Qed.

Lemma lower_ascii (R : Runtime) (s : str) :
  forallb ascii_char s = true ->
  forallb ascii_char (lower R s) = true /\ List.length (lower R s) = List.length s.
Proof.
  intros H. unfold lower.
  assert (L : forallb latin1 s = true).
  { rewrite forallb_forall in *. intros c Hc. apply H in Hc.
    unfold ascii_char, latin1 in *. apply N.ltb_lt in Hc. apply N.ltb_lt. lia. }
  rewrite L. split; [|apply length_map].
  rewrite forallb_forall in *. intros c Hc. apply in_map_iff in Hc as (x & <- & Hx).
  apply H in Hx. unfold ascii_char, lower_latin1 in *. apply N.ltb_lt in Hx.
  apply N.ltb_lt.
  destruct (N.leb_spec 0x41 x), (N.leb_spec x 0x5A), (N.leb_spec 0xC0 x),
    (N.leb_spec x 0xDE), (N.eqb_spec x 0xD7); cbn [andb negb]; lia.
Qed.

Lemma replace_ascii (a : N) (s : str) :
  forallb ascii_char s = true -> forallb ascii_char (replace_char a 0x2A s) = true.
Proof.
  intros H. unfold replace_char. rewrite forallb_forall in *.
  intros c Hc. apply in_map_iff in Hc as (x & <- & Hx).
  destruct (x =? a)%N; [reflexivity|auto].
Qed.

Lemma split_char_parts (q : N -> bool) (c : N) (s p : str) :
  In p (split_char c s) ->
  (forallb q s = true -> forallb q p = true)
  /\ (List.length p <= List.length s)%nat.
Proof.
  revert p. induction s as [|x t IH]; intros p Hp.
  - destruct Hp as [<-|[]]. auto.
  - cbn [split_char] in Hp.
    destruct (split_char c t) as [|w ws] eqn:Hs.
    + destruct Hp as [<-|[]]. split; [reflexivity|cbn; lia].
    + destruct (IH w (or_introl eq_refl)) as [Hw Lw].
      destruct (x =? c)%N.
      * destruct Hp as [<-|Hp]; [split; [reflexivity|cbn; lia]|].
        destruct (IH p Hp) as [H1 H2]. split.
        -- intros H. cbn [forallb] in H. apply andb_prop in H as [_ H]. auto.
        -- cbn [List.length]. lia.
      * destruct Hp as [<-|Hp].
        -- split.
           ++ intros H. cbn [forallb] in *. apply andb_prop in H as [Hx H].
              rewrite Hx. auto.
           ++ cbn [List.length]. lia.
        -- destruct (IH p (or_intror Hp)) as [H1 H2]. split.
           ++ intros H. cbn [forallb] in H. apply andb_prop in H as [_ H]. auto.
           ++ cbn [List.length]. lia.
Qed.

Lemma ascii_isdigit (R : Runtime) (w : str) :
  forallb ascii_char w = true -> isdigit R w = true -> forallb ascii_digit w = true.
Proof.
  unfold isdigit. intros A H. apply andb_prop in H as [_ H].
  rewrite forallb_forall in *. intros c Hc.
  specialize (A c Hc). specialize (H c Hc).
  unfold isdigit_char, latin1, ascii_char in *. apply N.ltb_lt in A.
  destruct (N.ltb_spec c 0x100) as [_|Hge]; [|lia].
  destruct (N.eqb_spec c 0xB2), (N.eqb_spec c 0xB3), (N.eqb_spec c 0xB9); try lia.
  now rewrite !orb_false_r in H.
Qed.

(** On a size written in ASCII, of at most 640 characters,
    [_normalize_size] always returns: neither [int()] nor anything else in
    it can raise. (A size with other digit characters can make it raise.) *)
Theorem normalize_size_total_on_ascii (R : Runtime) (size aspect_ratio : str) :
  forallb ascii_char size = true ->
  (List.length size <= 640)%nat ->
  exists s, _normalize_size R (Some size) aspect_ratio = Ret s.
Proof.
  intros A L. destruct size as [|c0 size0]; [eexists; reflexivity|].
  rewrite normalize_size_unfold by discriminate.
  set (size := c0 :: size0) in *.
  set (n := replace_char 0xD7 0x2A (replace_char 0x78 0x2A (lower R (strip size)))).
  assert (An : forallb ascii_char n = true).
  { unfold n. apply replace_ascii, replace_ascii, lower_ascii, strip_keeps, A. }
  assert (Ln : (List.length n <= 640)%nat).
  { unfold n, replace_char. rewrite !length_map.
    destruct (lower_ascii R (strip size) (strip_keeps size A)) as [_ ->].
    pose proof (strip_length size). lia. }
  assert (parts : forall p,
             In p (filter (fun p => negb (is_empty p)) (split_char 0x2A n)) ->
             forallb ascii_char p = true /\ (List.length p <= 640)%nat).
  { intros p Hp. apply filter_In in Hp as [Hp _].
    destruct (split_char_parts ascii_char 0x2A n p Hp) as [H1 H2]. split; [auto|lia]. }
  remember (filter (fun p => negb (is_empty p)) (split_char 0x2A n)) as ps eqn:Hps.
  clear Hps. destruct ps as [|w [|h [|x l]]]; try (eexists; reflexivity).
  destruct (isdigit R w) eqn:Dw; [|eexists; reflexivity].
  destruct (isdigit R h) eqn:Dh; [|eexists; reflexivity].
  cbn [andb].
  destruct (parts w (or_introl eq_refl)) as [Aw Lw].
  destruct (parts h (or_intror (or_introl eq_refl))) as [Ah Lh].
  rewrite (digits_int R w (ascii_isdigit R w Aw Dw) Lw).
  rewrite (digits_int R h (ascii_isdigit R h Ah Dh) Lh).
  eexists. reflexivity.
Qed.

Lemma normalize_size_total_on_ascii_example :
  exists s, _normalize_size latin1_runtime (Some (lit " 1280 X 720px ")) (lit "16:9") = Ret s.
Proof.
  refine (normalize_size_total_on_ascii latin1_runtime (lit " 1280 X 720px ") (lit "16:9")
            _ _).
  - vm_compute; reflexivity.
  - apply Nat.leb_le. vm_compute; reflexivity.
Defined.

End SizeCoverage.
